(** * tap-prefect: the request / pagination / extraction pipeline

    A shallow embedding of [src/tap_prefect/streams.py]: the three record
    sources ([FlowRunStream], [TaskRunSubStream], [EventStream]), the
    link-style paginator [MyHATEOASPaginator] and the request loop
    [EventStream.request_records].

    Python values are a small inductive type with Python's truthiness;
    exceptions are an error monad; the paginator and the HTTP transport,
    which the source mutates and calls, are threaded as explicit state. *)

From Stdlib Require Import String Ascii List ZArith Bool Lia DecimalString.
Import ListNotations.
Open Scope string_scope.
Set Warnings "-register-all".

(** ** Python values *)

(** [urllib.parse.ParseResult]: a named tuple of six strings. *)
Record ParseResult : Type := mkParseResult {
  pr_scheme : string;
  pr_netloc : string;
  pr_path : string;
  pr_params : string;
  pr_query : string;
  pr_fragment : string
}.

(** The dynamically typed values the streams handle: JSON data (config,
    records, payloads, response bodies) and parsed URLs (page tokens).
    A dict is an association list in insertion order; floats are not
    modelled. *)
Inductive pyval : Type :=
| PNone
| PBool (b : bool)
| PInt (n : Z)
| PStr (s : string)
| PList (l : list pyval)
| PDict (d : list (string * pyval))
| PUrl (u : ParseResult).

Definition pydict : Type := list (string * pyval).

(** [context: dict | None]. *)
Definition context : Type := option pydict.

(** Python's truth test, as [if x:], [not x] and [x or y] apply it. A
    named tuple of six fields is a non-empty tuple, hence always true. *)
Definition truthy (v : pyval) : bool :=
  match v with
  | PNone => false
  | PBool b => b
  | PInt n => negb (Z.eqb n 0)
  | PStr s => negb (String.eqb s "")
  | PList l => match l with [] => false | _ :: _ => true end
  | PDict d => match d with [] => false | _ :: _ => true end
  | PUrl _ => true
  end.

(** [x or y]. *)
Definition py_or (x y : pyval) : pyval := if truthy x then x else y.

(** ** Exceptions *)

Inductive exn : Type :=
| KeyError (key : string)
| AttributeError (attr : string)
| RuntimeError (msg : string)
| JSONDecodeError
| RequestException (msg : string).

Inductive res (A : Type) : Type :=
| Ok (a : A)
| Raise (e : exn).
Arguments Ok {A} a.
Arguments Raise {A} e.

Definition bind {A B : Type} (m : res A) (k : A -> res B) : res B :=
  match m with
  | Ok a => k a
  | Raise e => Raise e
  end.

Notation "x <- m ;; k" := (bind m (fun x => k))
  (at level 61, m at next level, right associativity).

(** ** Dictionaries *)

Fixpoint dict_lookup (k : string) (d : pydict) : option pyval :=
  match d with
  | [] => None
  | (k', v) :: d' => if String.eqb k k' then Some v else dict_lookup k d'
  end.

(** [d.get(k)]: the value, [None] when the key is absent. *)
Definition dict_get (d : pydict) (k : string) : pyval :=
  match dict_lookup k d with
  | Some v => v
  | None => PNone
  end.

(** [d[k]]: the value, [KeyError] when the key is absent. *)
Definition dict_getitem (d : pydict) (k : string) : res pyval :=
  match dict_lookup k d with
  | Some v => Ok v
  | None => Raise (KeyError k)
  end.

(** [v.get(k)] on an arbitrary value: only a dict has the method. *)
Definition py_get (v : pyval) (k : string) : res pyval :=
  match v with
  | PDict d => Ok (dict_get d k)
  | _ => Raise (AttributeError "get")
  end.

(** [v[k1][k2]...]: the value under a path of keys, when every step is a
    dict that has the key. *)
Fixpoint at_path (ks : list string) (v : pyval) : option pyval :=
  match ks with
  | [] => Some v
  | k :: ks' =>
      match v with
      | PDict d =>
          match dict_lookup k d with
          | Some v' => at_path ks' v'
          | None => None
          end
      | _ => None
      end
  end.

(** ** HTTP messages *)

(** [requests.Response], as far as the streams read it: [response.json()]
    gives the decoded body or raises. *)
Record Response : Type := mkResponse {
  json : res pyval
}.

(** The request [build_prepared_request] is asked for: its keyword
    arguments [method], [url], [params], [headers], [json]. *)
Record PreparedRequest : Type := mkRequest {
  req_method : string;
  req_url : string;
  req_params : pyval;
  req_headers : pydict;
  req_json : pyval
}.

Definition build_prepared_request (method url : string) (params : pyval)
    (headers : pydict) (json : pyval) : PreparedRequest :=
  mkRequest method url params headers json.

(** ** Collaborators outside the repository *)

(** Library functions the streams call: string formatting of a value in an
    f-string, [urllib.parse]'s [urlparse], [ParseResult.geturl] and
    [parse_qsl], [singer_sdk]'s [extract_jsonpath], and the placeholder
    substitution [RESTStream.get_url] applies to [url_base + path]. *)
Class Runtime : Type := {
  py_format : pyval -> string;
  urlparse : string -> ParseResult;
  geturl : ParseResult -> string;
  parse_qsl : string -> list (string * string);
  extract_jsonpath : string -> pyval -> list pyval;
  fill_placeholders : string -> pydict -> context -> string
}.

(** [self] of a [prefectStream]: what the base classes provide to the three
    record sources. [PAGE_SIZE] is a constant of [tap_prefect.client];
    [get_starting_replication_key_value] reads the bookmark of a context. *)
Record prefectStream : Type := mkStream {
  config : pydict;
  url_base : string;
  PAGE_SIZE : pyval;
  http_headers : pydict;
  get_starting_replication_key_value : context -> pyval
}.

(** [f"/accounts/{config['account_id']}/workspaces/{config['workspace_id']}/<tail>"]. *)
Definition workspace_path `{Runtime} (self : prefectStream) (tail : string)
    : res string :=
  account_id <- dict_getitem (config self) "account_id" ;;
  workspace_id <- dict_getitem (config self) "workspace_id" ;;
  Ok ("/accounts/" ++ py_format account_id ++ "/workspaces/"
      ++ py_format workspace_id ++ tail).

(** [RESTStream.get_url]: [url_base] joined with the stream's [path], then
    placeholders filled from config and context. The [path] property is
    read while the URL is built, so its [KeyError] surfaces here. *)
Definition sdk_get_url `{Runtime} (self : prefectStream) (path : res string)
    (ctx : context) : res string :=
  p <- path ;;
  Ok (fill_placeholders (url_base self ++ p) (config self) ctx).

(** [context.get(k)]: a context that is [None] has no [get]. *)
Definition context_get (ctx : context) (k : string) : res pyval :=
  match ctx with
  | Some d => Ok (dict_get d k)
  | None => Raise (AttributeError "get")
  end.

(** ** singer_sdk.pagination: the paginator base classes *)

Module pagination.

(** The attributes [BaseAPIPaginator.__init__] sets. *)
Record state (T : Type) : Type := mkState {
  _value : T;
  _page_count : nat;
  _finished : bool
}.
Arguments mkState {T} _ _ _.
Arguments _value {T} _.
Arguments _page_count {T} _.
Arguments _finished {T} _.

Section BaseAPIPaginator.
Context {T : Type}.
(** Truth test and [==] on tokens; the hooks a subclass overrides. *)
Variable token_truthy : T -> bool.
Variable token_eqb : T -> T -> bool.
Variable has_more : Response -> bool.
Variable get_next : Response -> res T.

Definition init (start_value : T) : state T := mkState start_value 0 false.

Definition current_value (st : state T) : T := _value st.

Definition finished (st : state T) : bool := _finished st.

(** [advance]: count the page; stop when [has_more] says so or the new
    token is falsy; raise on a token equal to the previous one. *)
Definition advance (st : state T) (response : Response) : res (state T) :=
  let count := S (_page_count st) in
  if negb (has_more response) then Ok (mkState (_value st) count true)
  else
    new_value <- get_next response ;;
    if token_truthy new_value && token_eqb new_value (_value st)
    then Raise (RuntimeError "Loop detected in pagination.")
    else if negb (token_truthy new_value)
         then Ok (mkState (_value st) count true)
         else Ok (mkState new_value count false).

End BaseAPIPaginator.

Definition ParseResult_eqb (a b : ParseResult) : bool :=
  String.eqb (pr_scheme a) (pr_scheme b)
  && String.eqb (pr_netloc a) (pr_netloc b)
  && String.eqb (pr_path a) (pr_path b)
  && String.eqb (pr_params a) (pr_params b)
  && String.eqb (pr_query a) (pr_query b)
  && String.eqb (pr_fragment a) (pr_fragment b).

(** [BaseHATEOASPaginator]: tokens are [ParseResult | None], the start
    value is [None], [has_more] is the base class's constant [True], and
    [get_next] parses what the subclass's [get_next_url] returns. *)
Section BaseHATEOASPaginator.
Context `{Runtime}.
Variable get_next_url : Response -> res pyval.

Definition hateoas_token : Type := option ParseResult.

Definition hateoas_truthy (t : hateoas_token) : bool :=
  match t with
  | Some _ => true
  | None => false
  end.

Definition hateoas_eqb (a b : hateoas_token) : bool :=
  match a, b with
  | Some x, Some y => ParseResult_eqb x y
  | None, None => true
  | _, _ => false
  end.

(** [urlparse(next_url) if next_url else None]; [urlparse] of a value
    that is not a string fails on its missing [decode]. *)
Definition hateoas_get_next (response : Response) : res hateoas_token :=
  next_url <- get_next_url response ;;
  if truthy next_url then
    match next_url with
    | PStr s => Ok (Some (urlparse s))
    | _ => Raise (AttributeError "decode")
    end
  else Ok None.

Definition hateoas_init : state hateoas_token := init None.

Definition hateoas_advance
    : state hateoas_token -> Response -> res (state hateoas_token) :=
  advance hateoas_truthy hateoas_eqb (fun _ => true) hateoas_get_next.

End BaseHATEOASPaginator.

(** A page token as the streams receive it. *)
Definition token_value (t : hateoas_token) : pyval :=
  match t with
  | Some u => PUrl u
  | None => PNone
  end.

End pagination.

(** What the request loop asks of a paginator object. *)
Class Paginator (S : Type) : Type := {
  finished : S -> bool;
  current_value : S -> pyval;
  advance : S -> Response -> res S
}.

(** The decorated [_request] of the stream: sends one prepared request,
    returns the response or raises; [W] is the state of the world it
    talks to. *)
Class Transport (W : Type) : Type := {
  decorated_request : W -> PreparedRequest -> context -> res Response * W
}.

(** ** class MyHATEOASPaginator *)

Module MyHATEOASPaginator.

(** [response.json().get("next_page")]; the value is logged and
    returned. *)
Definition get_next_url (response : Response) : res pyval :=
  body <- json response ;;
  py_get body "next_page".

(** The paginator object: [BaseHATEOASPaginator] with this
    [get_next_url]. *)
Definition t : Type := pagination.state pagination.hateoas_token.

Definition new : t := pagination.hateoas_init.

Definition advance `{Runtime} : t -> Response -> res t :=
  pagination.hateoas_advance get_next_url.

#[global] Instance paginator `{Runtime} : Paginator t := {
  finished := pagination.finished;
  current_value := fun st => pagination.token_value (pagination.current_value st);
  advance := advance
}.

End MyHATEOASPaginator.

(** ** class FlowRunStream *)

Module FlowRunStream.
Section stream.
Context `{Runtime}.

Definition name : string := "flow_runs".
Definition rest_method : string := "POST".
Definition primary_keys : list string := ["id"].
Definition replication_key : pyval := PStr "expected_start_time".

Definition path (self : prefectStream) : res string :=
  workspace_path self "/flow_runs/filter".

Definition prepare_request_payload (self : prefectStream) (ctx : context)
    (next_page_token : pyval) : pyval :=
  let starting_date :=
    py_or (get_starting_replication_key_value self ctx)
          (dict_get (config self) "start_date") in
  PDict [ ("sort", PStr "EXPECTED_START_TIME_ASC");
          ("offset", next_page_token);
          ("limit", PAGE_SIZE self);
          ("flow_runs",
            PDict [("expected_start_time", PDict [("after_", starting_date)])]) ].

(** [{"flow_id": record["id"]}]; the parent's own context is not read. *)
Definition get_child_context (record : pydict) (ctx : context) : res pydict :=
  id <- dict_getitem record "id" ;;
  Ok [("flow_id", id)].

End stream.
End FlowRunStream.

(** ** class TaskRunSubStream *)

Module TaskRunSubStream.
Section stream.
Context `{Runtime}.

Definition name : string := "task_runs".
Definition rest_method : string := "POST".
Definition ignore_parent_replication_key : bool := true.
Definition primary_keys : list string := ["id"].
Definition state_partitioning_keys : list string := [].
Definition replication_key : pyval := PNone.

(** The [partitions] property. *)
Definition partitions (self : prefectStream) : list pydict := [].

Definition path (self : prefectStream) : res string :=
  workspace_path self "/task_runs/filter".

Definition prepare_request_payload (self : prefectStream) (ctx : context)
    (next_page_token : pyval) : res pyval :=
  flow_id <- context_get ctx "flow_id" ;;
  Ok (PDict [ ("sort", PStr "EXPECTED_START_TIME_ASC");
              ("offset", next_page_token);
              ("limit", PAGE_SIZE self);
              ("flow_runs", PDict [("id", PDict [("any_", PList [flow_id])])]) ]).

End stream.
End TaskRunSubStream.

(** ** class EventStream *)

(** What one call of [request_records] did: the records it yielded, the
    requests it sent with their responses (in order), the value of the
    request counter, and how it stopped. *)
Inductive outcome : Type :=
| Finished
| Raised (e : exn)
| OutOfFuel.

Record run : Type := mkRun {
  emitted : list pyval;
  exchanges : list (PreparedRequest * Response);
  request_counter : nat;
  status : outcome
}.

Definition stop (o : outcome) : run := mkRun [] [] 0 o.

(** One more page in front of the rest of a run: the request was sent
    and counted, [records] were yielded. *)
Definition page (rq : PreparedRequest) (resp : Response)
    (records : list pyval) (rest : run) : run :=
  mkRun (records ++ emitted rest) ((rq, resp) :: exchanges rest)
        (S (request_counter rest)) (status rest).

Module EventStream.
Section stream.
Context `{Runtime}.

Definition name : string := "events".
Definition rest_method : string := "POST".
Definition records_jsonpath : string := "$.events[*]".
Definition primary_keys : list string := ["id"].
Definition replication_key : pyval := PStr "occurred".
Definition next_page_token_jsonpath : pyval := PNone.

Definition path (self : prefectStream) : res string :=
  workspace_path self "/events/filter".

Definition get_url (self : prefectStream) (ctx : context) : res string :=
  sdk_get_url self (path self) ctx.

Definition get_new_paginator : MyHATEOASPaginator.t := MyHATEOASPaginator.new.

(** The body is [return None]; the [parse_qsl] branch is commented out. *)
Definition get_url_params (self : prefectStream) (ctx : context)
    (next_page_token : pyval) : pyval :=
  PNone.

Definition prepare_request_payload (self : prefectStream) (ctx : context)
    (next_page_token : pyval) : pyval :=
  let starting_date :=
    py_or (get_starting_replication_key_value self ctx)
          (dict_get (config self) "start_date") in
  let params :=
    PDict [ ("limit", PInt 50);
            ("filter",
              PDict [ ("occurred", PDict [("since", starting_date)]);
                      ("event", PDict [("exclude_name", PList [PStr "prefect.log.write"])]);
                      ("order", PStr "ASC") ]) ] in
  if truthy next_page_token then PNone else params.

(** [next_page_token.geturl()]: only a parsed URL has the method. *)
Definition token_geturl (next_page_token : pyval) : res string :=
  match next_page_token with
  | PUrl u => Ok (geturl u)
  | _ => Raise (AttributeError "geturl")
  end.

(** The first [def prepare_request] of the class body (lines 159-204),
    which the second one replaces when the class is created. *)
Definition prepare_request_first_definition (self : prefectStream)
    (ctx : context) (next_page_token : pyval) : res PreparedRequest :=
  let http_method := if truthy next_page_token then "POST" else rest_method in
  url <- get_url self ctx ;;
  let params := get_url_params self ctx next_page_token in
  let request_data := prepare_request_payload self ctx next_page_token in
  let headers := http_headers self in
  let prepped := build_prepared_request http_method url params headers request_data in
  Ok (build_prepared_request http_method url params headers request_data).

(** The second [def prepare_request] (lines 275-309): the method the
    class has. *)
Definition prepare_request (self : prefectStream) (ctx : context)
    (next_page_token : pyval) : res PreparedRequest :=
  target <- (if truthy next_page_token
             then (url <- token_geturl next_page_token ;; Ok ("GET", url))
             else (url <- get_url self ctx ;; Ok (rest_method, url))) ;;
  let http_method := fst target in
  let url := snd target in
  let params := get_url_params self ctx next_page_token in
  let request_data := prepare_request_payload self ctx next_page_token in
  let headers := http_headers self in
  Ok (build_prepared_request http_method url params headers request_data).

(** [yield from extract_jsonpath(self.records_jsonpath, input=response.json())]. *)
Definition parse_response (response : Response) : res (list pyval) :=
  body <- json response ;;
  Ok (extract_jsonpath records_jsonpath body).

(** The [while not paginator.finished] loop of [request_records], for any
    paginator object and transport. [fuel] bounds the number of times the
    loop condition is tested; [update_sync_costs] and the log lines touch
    nothing the loop reads. Records yielded before an exception stay
    yielded. *)
Fixpoint request_loop {S W : Type} `{Paginator S} `{Transport W}
    (self : prefectStream) (ctx : context) (fuel : nat) (w : W)
    (paginator : S) : run :=
  match fuel with
  | O => stop OutOfFuel
  | Datatypes.S fuel' =>
      if finished paginator then stop Finished
      else
        let npt := current_value paginator in
        match prepare_request self ctx npt with
        | Raise e => stop (Raised e)
        | Ok prepared_request =>
            match decorated_request w prepared_request ctx with
            | (Raise e, _) => stop (Raised e)
            | (Ok resp, w') =>
                match parse_response resp with
                | Raise e => page prepared_request resp [] (stop (Raised e))
                | Ok records =>
                    match advance paginator resp with
                    | Raise e =>
                        page prepared_request resp records (stop (Raised e))
                    | Ok paginator' =>
                        page prepared_request resp records
                             (request_loop self ctx fuel' w' paginator')
                    end
                end
            end
        end
  end.

(** [request_records]: the loop started on [self.get_new_paginator()].
    Opening the request counter reads [self.path] first, so a
    configuration without the identifiers fails before any request. *)
Definition request_records {W : Type} `{Transport W} (self : prefectStream)
    (ctx : context) (fuel : nat) (w : W) : run :=
  let paginator := get_new_paginator in
  match path self with
  | Raise e => stop (Raised e)
  | Ok _ => request_loop self ctx fuel w paginator
  end.

End stream.
End EventStream.

(** ** The request loop, relationally *)

Section page_sequences.
Context `{Runtime} {S W : Type} `{Paginator S} `{Transport W}.
Variable self : prefectStream.
Variable ctx : context.

(** What the loop yields for one response: the parsed records, nothing
    when parsing raises. *)
Definition records_of (resp : Response) : list pyval :=
  match EventStream.parse_response resp with
  | Ok records => records
  | Raise _ => []
  end.

(** [paginates w pg pages]: started in world [w] with paginator [pg], the
    loop is served exactly the page sequence [pages], every step of an
    iteration succeeds, and the paginator reports finished after it has
    advanced over the last page and not before. *)
Inductive paginates : W -> S -> list Response -> Prop :=
| paginates_done : forall w pg,
    finished pg = true ->
    paginates w pg []
| paginates_page : forall w pg rq resp w' records pg' pages,
    finished pg = false ->
    EventStream.prepare_request self ctx (current_value pg) = Ok rq ->
    decorated_request w rq ctx = (Ok resp, w') ->
    EventStream.parse_response resp = Ok records ->
    advance pg resp = Ok pg' ->
    paginates w' pg' pages ->
    paginates w pg (resp :: pages).

(** [served w xs]: the exchanges [xs] are what the transport answered,
    one request after the other, starting in world [w]. *)
Fixpoint served (w : W) (xs : list (PreparedRequest * Response)) : Prop :=
  match xs with
  | [] => True
  | (rq, resp) :: xs' =>
      exists w', decorated_request w rq ctx = (Ok resp, w') /\ served w' xs'
  end.

(** [observed w pg pages o]: what can be seen of the loop started in
    world [w] with paginator [pg]. It is served the pages [pages], one
    request after the other, and then stands as [o] says: the paginator
    reported finished, a step raised (the path or token could not be
    turned into a request, the transport failed, the last page of
    [pages] could not be parsed, or the paginator raised on it), or the
    loop is still running and is looked at no further ([OutOfFuel]).
    The relation speaks of the paginator, the transport and the parser
    only, not of what the loop yields. *)
Inductive observed : W -> S -> list Response -> outcome -> Prop :=
| observed_cut : forall w pg,
    observed w pg [] OutOfFuel
| observed_finished : forall w pg,
    finished pg = true ->
    observed w pg [] Finished
| observed_prepare_raises : forall w pg e,
    finished pg = false ->
    EventStream.prepare_request self ctx (current_value pg) = Raise e ->
    observed w pg [] (Raised e)
| observed_transport_raises : forall w pg rq e w',
    finished pg = false ->
    EventStream.prepare_request self ctx (current_value pg) = Ok rq ->
    decorated_request w rq ctx = (Raise e, w') ->
    observed w pg [] (Raised e)
| observed_parse_raises : forall w pg rq resp w' e,
    finished pg = false ->
    EventStream.prepare_request self ctx (current_value pg) = Ok rq ->
    decorated_request w rq ctx = (Ok resp, w') ->
    EventStream.parse_response resp = Raise e ->
    observed w pg [resp] (Raised e)
| observed_advance_raises : forall w pg rq resp w' records e,
    finished pg = false ->
    EventStream.prepare_request self ctx (current_value pg) = Ok rq ->
    decorated_request w rq ctx = (Ok resp, w') ->
    EventStream.parse_response resp = Ok records ->
    advance pg resp = Raise e ->
    observed w pg [resp] (Raised e)
| observed_page : forall w pg rq resp w' records pg' pages o,
    finished pg = false ->
    EventStream.prepare_request self ctx (current_value pg) = Ok rq ->
    decorated_request w rq ctx = (Ok resp, w') ->
    EventStream.parse_response resp = Ok records ->
    advance pg resp = Ok pg' ->
    observed w' pg' pages o ->
    observed w pg (resp :: pages) o.

End page_sequences.

(** The bounds under which the loop function shows an observation: more
    loop tests than pages for a run that stopped by itself, exactly as
    many as pages for a run looked at while still going. *)
Definition fuel_for (pages : list Response) (o : outcome) (fuel : nat) : Prop :=
  match o with
  | OutOfFuel => fuel = length pages
  | _ => length pages < fuel
  end.

(** ** Page sequences told by their links *)




(** ** The query parameters as the specification words them *)

(** Follows the spec's words (and the lines commented out in
    [get_url_params]): nothing on the first page, the key-values parsed
    from the link's query string when a token is followed. *)
Definition get_url_params_as_specified `{Runtime} (next_page_token : pyval)
    : option pyval :=
  if truthy next_page_token then
    match next_page_token with
    | PUrl u => Some (PDict (map (fun kv => (fst kv, PStr (snd kv)))
                                 (parse_qsl (pr_query u))))
    | _ => None
    end
  else Some PNone.

(** ** A concrete runtime and the end-to-end scenarios *)

Module Scenario.

(** The text before and after the first [c] in [s]. *)
Fixpoint split_first (c : ascii) (s : string) : option (string * string) :=
  match s with
  | EmptyString => None
  | String a s' =>
      if Ascii.eqb a c then Some ("", s')
      else match split_first c s' with
           | Some (l, r) => Some (String a l, r)
           | None => None
           end
  end.

Fixpoint split_all (c : ascii) (s : string) (fuel : nat) : list string :=
  match fuel with
  | O => [s]
  | S fuel' =>
      match split_first c s with
      | Some (l, r) => l :: split_all c r fuel'
      | None => [s]
      end
  end.

(** The prefix of [s] before the first of ["/"], ["?"], ["#"], and the
    rest from that character on. *)
Fixpoint split_netloc (s : string) : string * string :=
  match s with
  | EmptyString => ("", "")
  | String a s' =>
      if Ascii.eqb a "/" || Ascii.eqb a "?" || Ascii.eqb a "#" then ("", s)
      else let (l, r) := split_netloc s' in (String a l, r)
  end.

(** [urlparse] on URLs of the shape [scheme://netloc/path?query#fragment]
    (no [;parameters]), in [urlsplit]'s order: scheme, netloc, fragment,
    query. *)
Definition simple_urlparse (url : string) : ParseResult :=
  let (scheme, rest) :=
    match split_first ":" url with
    | Some (sch, r) =>
        if negb (String.eqb sch "") && String.eqb (fst (split_netloc sch)) sch
        then (sch, r) else ("", url)
    | None => ("", url)
    end in
  let (netloc, rest) :=
    match rest with
    | String "/" (String "/" r) => split_netloc r
    | _ => ("", rest)
    end in
  let (rest, fragment) :=
    match split_first "#" rest with
    | Some (l, r) => (l, r)
    | None => (rest, "")
    end in
  let (path, query) :=
    match split_first "?" rest with
    | Some (l, r) => (l, r)
    | None => (rest, "")
    end in
  mkParseResult scheme netloc path "" query fragment.

(** [urlunparse] for a result that has a netloc or no scheme. *)
Definition simple_geturl (u : ParseResult) : string :=
  let url := if String.eqb (pr_params u) "" then pr_path u
             else pr_path u ++ ";" ++ pr_params u in
  let url :=
    if String.eqb (pr_netloc u) "" then url
    else "//" ++ pr_netloc u
         ++ match url with
            | EmptyString => ""
            | String "/" _ => url
            | _ => "/" ++ url
            end in
  let url := if String.eqb (pr_scheme u) "" then url
             else pr_scheme u ++ ":" ++ url in
  let url := if String.eqb (pr_query u) "" then url
             else url ++ "?" ++ pr_query u in
  if String.eqb (pr_fragment u) "" then url
  else url ++ "#" ++ pr_fragment u.

(** [parse_qsl] on a query without escapes or blank values: [k=v] pairs
    separated by [&]. *)
Definition simple_parse_qsl (qs : string) : list (string * string) :=
  flat_map (fun kv => match split_first "=" kv with
                      | Some (k, v) => [(k, v)]
                      | None => []
                      end)
           (split_all "&" qs (String.length qs)).

(** [str] of the scalars a configuration holds. *)
Definition simple_format (v : pyval) : string :=
  match v with
  | PStr s => s
  | PInt n => NilZero.string_of_int (Z.to_int n)
  | PNone => "None"
  | PBool true => "True"
  | PBool false => "False"
  | _ => ""
  end.

(** [$.events[*]]: the elements of the body's [events] list; a scalar or
    dict there counts as one record, a missing or empty field as none. *)
Definition simple_extract_jsonpath (expr : string) (input : pyval) : list pyval :=
  if String.eqb expr "$.events[*]" then
    match input with
    | PDict d =>
        match dict_lookup "events" d with
        | Some (PList l) => l
        | Some v => if truthy v then [v] else []
        | None => []
        end
    | _ => []
    end
  else [].

Definition runtime : Runtime := {|
  py_format := simple_format;
  urlparse := simple_urlparse;
  geturl := simple_geturl;
  parse_qsl := simple_parse_qsl;
  extract_jsonpath := simple_extract_jsonpath;
  fill_placeholders := fun template _ _ => template
|}.

(** A server with a fixed answer per (method, URL); anything else is a
    failed request. The world never changes. *)
Definition routes : Type := list ((string * string) * Response).

Fixpoint route (table : routes) (rq : PreparedRequest) : res Response :=
  match table with
  | [] => Raise (RequestException "404")
  | ((m, u), resp) :: table' =>
      if String.eqb m (req_method rq) && String.eqb u (req_url rq)
      then Ok resp else route table' rq
  end.

Definition server : Transport routes := {|
  decorated_request := fun table rq _ => (route table rq, table)
|}.

(** A tap configured for one workspace, with no bookmark yet, and the
    same tap resuming from a bookmark. *)
Definition tap : prefectStream := {|
  config := [ ("account_id", PStr "acct"); ("workspace_id", PStr "ws");
              ("start_date", PStr "2023-01-01T00:00:00Z") ];
  url_base := "https://api.prefect.cloud/api";
  PAGE_SIZE := PInt 200;
  http_headers := [("Authorization", PStr "Bearer token")];
  get_starting_replication_key_value := fun _ => PNone
|}.

Definition resumed_tap : prefectStream := {|
  config := config tap;
  url_base := url_base tap;
  PAGE_SIZE := PAGE_SIZE tap;
  http_headers := http_headers tap;
  get_starting_replication_key_value := fun _ => PStr "2024-05-01T12:00:00Z"
|}.

Definition events_url : string :=
  "https://api.prefect.cloud/api/accounts/acct/workspaces/ws/events/filter".

Definition next_link : string := "https://api/events?cursor=abc".

Definition next_token : ParseResult :=
  mkParseResult "https" "api" "/events" "" "cursor=abc" "".

Definition event (id : Z) : pyval := PDict [("id", PInt id)].

(** The first events page carries a resumption link, the second none. *)
Definition page1 : Response :=
  mkResponse (Ok (PDict [ ("events", PList [event 1; event 2]);
                          ("next_page", PStr next_link) ])).

Definition page2 : Response :=
  mkResponse (Ok (PDict [ ("events", PList [event 3]);
                          ("next_page", PNone) ])).

Definition events_api : routes :=
  [ (("POST", events_url), page1); (("GET", next_link), page2) ].

(** Two flow-run records of one page. *)
Definition flow_run (id : Z) : pydict :=
  [("id", PInt id); ("expected_start_time", PStr "2024-05-01T12:00:00Z")].

End Scenario.

(** * Properties *)

(** ** Helper facts *)

Lemma py_or_truthy : forall x y, truthy x = true -> py_or x y = x.
Proof. intros x y Hx. unfold py_or. now rewrite Hx. Qed.

Lemma py_or_falsy : forall x y, truthy x = false -> py_or x y = y.
Proof. intros x y Hx. unfold py_or. now rewrite Hx. Qed.

Lemma py_or_none : forall y, py_or PNone y = y.
Proof. intro y. apply py_or_falsy. reflexivity. Qed.

Lemma bind_ok : forall (A B : Type) (m : res A) (k : A -> res B) (a : A),
  m = Ok a -> bind m k = k a.
Proof. intros A B m k a ->. reflexivity. Qed.

Lemma bind_raise : forall (A B : Type) (m : res A) (k : A -> res B) (e : exn),
  m = Raise e -> bind m k = Raise e.
Proof. intros A B m k e ->. reflexivity. Qed.

(** ** Request preparation for events *)

Section request_preparation.
Context `{Runtime}.

Lemma get_url_ok_path_ok : forall self ctx base,
  EventStream.get_url self ctx = Ok base ->
  exists p, EventStream.path self = Ok p.
Proof.
  intros self ctx base Hurl.
  unfold EventStream.get_url, sdk_get_url in Hurl.
  destruct (EventStream.path self) as [p | e].
  - now exists p.
  - discriminate Hurl.
Qed.

Lemma prepare_request_with_link : forall self ctx u,
  EventStream.prepare_request self ctx (PUrl u)
  = Ok (mkRequest "GET" (geturl u) PNone (http_headers self) PNone).
Proof. intros self ctx u. reflexivity. Qed.

Lemma prepare_request_first_page : forall self ctx tok base,
  truthy tok = false ->
  EventStream.get_url self ctx = Ok base ->
  EventStream.prepare_request self ctx tok
  = Ok (mkRequest EventStream.rest_method base PNone (http_headers self)
          (EventStream.prepare_request_payload self ctx tok)).
Proof.
  intros self ctx tok base Htok Hurl.
  unfold EventStream.prepare_request.
  rewrite Htok, Hurl. reflexivity.
Qed.

Lemma prepare_request_first_page_raises : forall self ctx tok e,
  truthy tok = false ->
  EventStream.get_url self ctx = Raise e ->
  EventStream.prepare_request self ctx tok = Raise e.
Proof.
  intros self ctx tok e Htok Hurl.
  unfold EventStream.prepare_request.
  rewrite Htok, Hurl. reflexivity.
Qed.

(** C1. With a parsed next-page URL as token, [prepare_request] builds a
    GET request to exactly the token's URL, with no JSON body, whatever
    the stream's own path would be; with no token (any falsy token) the
    method is the configured [rest_method] and the URL is the stream's
    computed URL, and a failure to compute that URL is the failure of the
    call. *)
Theorem prepare_request_link_or_first_page :
  forall (self : prefectStream) (ctx : context),
    (forall u : ParseResult,
        exists rq,
          EventStream.prepare_request self ctx (PUrl u) = Ok rq
          /\ req_method rq = "GET"
          /\ req_url rq = geturl u
          /\ req_json rq = PNone)
    /\ (forall tok base,
          truthy tok = false ->
          EventStream.get_url self ctx = Ok base ->
          exists rq,
            EventStream.prepare_request self ctx tok = Ok rq
            /\ req_method rq = EventStream.rest_method
            /\ req_url rq = base)
    /\ (forall tok e,
          truthy tok = false ->
          EventStream.get_url self ctx = Raise e ->
          EventStream.prepare_request self ctx tok = Raise e).
Proof.
  intros self ctx. split; [| split].
  - intro u. eexists. split.
    + apply prepare_request_with_link.
    + cbn. auto.
  - intros tok base Htok Hurl. eexists. split.
    + apply prepare_request_first_page; eassumption.
    + cbn. auto.
  - apply prepare_request_first_page_raises.
Qed.

End request_preparation.

(** The scenario of the specification: the link of the first events page
    is followed by a GET to that very URL without a body, and the first
    request is a POST to the events filter endpoint. *)
Lemma prepare_request_link_or_first_page_witness :
  (exists rq,
      @EventStream.prepare_request Scenario.runtime Scenario.tap None
        (PUrl Scenario.next_token) = Ok rq
      /\ req_method rq = "GET"
      /\ req_url rq = Scenario.next_link
      /\ req_json rq = PNone)
  /\ (exists rq,
        @EventStream.prepare_request Scenario.runtime Scenario.tap None PNone
        = Ok rq
        /\ req_method rq = "POST"
        /\ req_url rq = Scenario.events_url).
Proof.
  destruct (@prepare_request_link_or_first_page Scenario.runtime
              Scenario.tap None) as (Hlink & Hfirst & _).
  split.
  - exact (Hlink Scenario.next_token).
  - apply (Hfirst PNone Scenario.events_url); reflexivity.
Defined.

(** ** Payload builders *)

Section payloads.

Lemma events_payload_first_page : forall self ctx tok,
  truthy tok = false ->
  EventStream.prepare_request_payload self ctx tok
  = PDict [ ("limit", PInt 50);
            ("filter",
              PDict [ ("occurred",
                        PDict [("since",
                                 py_or (get_starting_replication_key_value self ctx)
                                       (dict_get (config self) "start_date"))]);
                      ("event", PDict [("exclude_name", PList [PStr "prefect.log.write"])]);
                      ("order", PStr "ASC") ]) ].
Proof.
  intros self ctx tok Htok.
  unfold EventStream.prepare_request_payload. now rewrite Htok.
Qed.

(** C2. The events payload is absent ([None]) for every truthy token,
    whatever the context and the bookmark. With no token, the filter's
    [occurred.since] is [cursor or start_date]: the replication cursor
    of the context when there is one (a value Python takes as true), the
    configured [start_date] when there is none; and the event filter
    excludes the name [prefect.log.write]. *)
Theorem events_payload_absent_with_token :
  forall (self : prefectStream) (ctx : context),
    (forall tok, truthy tok = true ->
       EventStream.prepare_request_payload self ctx tok = PNone)
    /\ at_path ["filter"; "occurred"; "since"]
         (EventStream.prepare_request_payload self ctx PNone)
       = Some (py_or (get_starting_replication_key_value self ctx)
                     (dict_get (config self) "start_date"))
    /\ (forall cursor,
          get_starting_replication_key_value self ctx = cursor ->
          truthy cursor = true ->
          at_path ["filter"; "occurred"; "since"]
            (EventStream.prepare_request_payload self ctx PNone)
          = Some cursor)
    /\ (get_starting_replication_key_value self ctx = PNone ->
        at_path ["filter"; "occurred"; "since"]
          (EventStream.prepare_request_payload self ctx PNone)
        = Some (dict_get (config self) "start_date"))
    /\ at_path ["filter"; "event"; "exclude_name"]
         (EventStream.prepare_request_payload self ctx PNone)
       = Some (PList [PStr "prefect.log.write"]).
Proof.
  intros self ctx.
  assert (Hfirst := events_payload_first_page self ctx PNone eq_refl).
  split; [| split; [| split; [| split]]].
  - intros tok Htok. unfold EventStream.prepare_request_payload.
    now rewrite Htok.
  - rewrite Hfirst. reflexivity.
  - intros cursor Hcursor Htrue. rewrite Hfirst. cbn.
    rewrite Hcursor, py_or_truthy by assumption. reflexivity.
  - intro Hnone. rewrite Hfirst. cbn.
    rewrite Hnone, py_or_none. reflexivity.
  - rewrite Hfirst. reflexivity.
Qed.

(** C4. The flow-runs payload, for every context and token: [sort] is
    ascending expected start time, [offset] is the page token, [limit]
    is the page size, and [flow_runs.expected_start_time.after_] is
    [cursor or start_date]: the replication cursor of the context when
    there is one, the configured [start_date] when there is none. *)
Theorem flow_runs_payload_filter :
  forall (self : prefectStream) (ctx : context) (tok : pyval),
    at_path ["sort"] (FlowRunStream.prepare_request_payload self ctx tok)
    = Some (PStr "EXPECTED_START_TIME_ASC")
    /\ at_path ["offset"] (FlowRunStream.prepare_request_payload self ctx tok)
       = Some tok
    /\ at_path ["limit"] (FlowRunStream.prepare_request_payload self ctx tok)
       = Some (PAGE_SIZE self)
    /\ at_path ["flow_runs"; "expected_start_time"; "after_"]
         (FlowRunStream.prepare_request_payload self ctx tok)
       = Some (py_or (get_starting_replication_key_value self ctx)
                     (dict_get (config self) "start_date"))
    /\ (forall C,
          get_starting_replication_key_value self ctx = C ->
          truthy C = true ->
          at_path ["flow_runs"; "expected_start_time"; "after_"]
            (FlowRunStream.prepare_request_payload self ctx tok)
          = Some C)
    /\ (forall D,
          get_starting_replication_key_value self ctx = PNone ->
          dict_get (config self) "start_date" = D ->
          at_path ["flow_runs"; "expected_start_time"; "after_"]
            (FlowRunStream.prepare_request_payload self ctx tok)
          = Some D).
Proof.
  intros self ctx tok.
  repeat split; try reflexivity.
  - intros C HC Htrue. cbn.
    rewrite HC, py_or_truthy by assumption. reflexivity.
  - intros D Hnone HD. cbn.
    rewrite Hnone, py_or_none, HD. reflexivity.
Qed.

End payloads.

(** A resumed tap filters from its bookmark, a fresh one from the
    configured start date; a token empties the events payload. *)
Lemma events_payload_absent_with_token_witness :
  EventStream.prepare_request_payload Scenario.resumed_tap
    None (PUrl Scenario.next_token) = PNone
  /\ at_path ["filter"; "occurred"; "since"]
       (EventStream.prepare_request_payload Scenario.resumed_tap None PNone)
     = Some (PStr "2024-05-01T12:00:00Z")
  /\ at_path ["filter"; "occurred"; "since"]
       (EventStream.prepare_request_payload Scenario.tap None PNone)
     = Some (PStr "2023-01-01T00:00:00Z").
Proof.
  destruct (events_payload_absent_with_token Scenario.resumed_tap None) as (Htok & _ & Hcursor & _).
  destruct (events_payload_absent_with_token Scenario.tap None) as (_ & _ & _ & Hdefault & _).
  split; [| split].
  - apply Htok. reflexivity.
  - apply Hcursor; reflexivity.
  - apply Hdefault. reflexivity.
Defined.

Lemma flow_runs_payload_filter_witness :
  at_path ["flow_runs"; "expected_start_time"; "after_"]
    (FlowRunStream.prepare_request_payload Scenario.resumed_tap None (PInt 200))
  = Some (PStr "2024-05-01T12:00:00Z")
  /\ at_path ["flow_runs"; "expected_start_time"; "after_"]
       (FlowRunStream.prepare_request_payload Scenario.tap None PNone)
     = Some (PStr "2023-01-01T00:00:00Z").
Proof.
  destruct (flow_runs_payload_filter Scenario.resumed_tap None (PInt 200)) as (_ & _ & _ & _ & Hcursor & _).
  destruct (flow_runs_payload_filter Scenario.tap None PNone) as (_ & _ & _ & _ & _ & Hdefault).
  split.
  - apply Hcursor; reflexivity.
  - apply Hdefault; reflexivity.
Defined.

(** ** Parent and child: flow runs and their task runs *)

Section parent_child.

Lemma child_context_of_record : forall record N parent_ctx,
  dict_lookup "id" record = Some N ->
  FlowRunStream.get_child_context record parent_ctx = Ok [("flow_id", N)].
Proof.
  intros record N parent_ctx Hid.
  unfold FlowRunStream.get_child_context, dict_getitem.
  now rewrite Hid.
Qed.

Lemma task_runs_payload_of_flow_id : forall self N tok,
  TaskRunSubStream.prepare_request_payload self (Some [("flow_id", N)]) tok
  = Ok (PDict [ ("sort", PStr "EXPECTED_START_TIME_ASC");
                ("offset", tok);
                ("limit", PAGE_SIZE self);
                ("flow_runs", PDict [("id", PDict [("any_", PList [N])])]) ]).
Proof. intros self N tok. reflexivity. Qed.

(** C5. A flow-run record with identifier [N] gives the child context
    [{flow_id: N}]; the task-runs payload built from that context has
    [flow_runs.id.any_ = [N]] for every stream and token, and is the
    same whatever the replication cursor is. *)
Theorem task_runs_scoped_to_parent_flow :
  forall (record : pydict) (N : pyval) (parent_ctx : context),
    dict_lookup "id" record = Some N ->
    FlowRunStream.get_child_context record parent_ctx = Ok [("flow_id", N)]
    /\ (forall self tok,
          exists payload,
            TaskRunSubStream.prepare_request_payload self
              (Some [("flow_id", N)]) tok = Ok payload
            /\ at_path ["flow_runs"; "id"; "any_"] payload = Some (PList [N]))
    /\ (forall cfg base size hdrs cursor cursor' tok,
          TaskRunSubStream.prepare_request_payload
            (mkStream cfg base size hdrs cursor) (Some [("flow_id", N)]) tok
          = TaskRunSubStream.prepare_request_payload
              (mkStream cfg base size hdrs cursor') (Some [("flow_id", N)]) tok).
Proof.
  intros record N parent_ctx Hid. split; [| split].
  - now apply child_context_of_record.
  - intros self tok. eexists. split.
    + apply task_runs_payload_of_flow_id.
    + reflexivity.
  - intros. now rewrite !task_runs_payload_of_flow_id.
Qed.

(** C8. The task-runs stream has no partitions, for every configuration
    and state: the property is the empty list, so nothing is ever run
    once per partition. *)
Theorem task_runs_partitions_empty :
  forall (self : prefectStream),
    TaskRunSubStream.partitions self = []
    /\ (forall partition, ~ In partition (TaskRunSubStream.partitions self))
    /\ (forall (A : Type) (sync : pydict -> A),
          map sync (TaskRunSubStream.partitions self) = []).
Proof.
  intro self.
  assert (Hempty : TaskRunSubStream.partitions self = []) by reflexivity.
  split; [exact Hempty | split].
  - intros partition Hin. rewrite Hempty in Hin. exact Hin.
  - intros A sync. rewrite Hempty. reflexivity.
Qed.

End parent_child.

(** The scenario of the specification: parents 1 and 2 give task-run
    bodies with [flow_runs.id.any_] equal to [[1]] and [[2]]. *)
Lemma task_runs_scoped_to_parent_flow_witness :
  (FlowRunStream.get_child_context (Scenario.flow_run 1) None
   = Ok [("flow_id", PInt 1)]
   /\ exists payload,
        TaskRunSubStream.prepare_request_payload Scenario.resumed_tap
          (Some [("flow_id", PInt 1)]) PNone = Ok payload
        /\ at_path ["flow_runs"; "id"; "any_"] payload = Some (PList [PInt 1]))
  /\ (FlowRunStream.get_child_context (Scenario.flow_run 2) None
      = Ok [("flow_id", PInt 2)]
      /\ exists payload,
           TaskRunSubStream.prepare_request_payload Scenario.resumed_tap
             (Some [("flow_id", PInt 2)]) PNone = Ok payload
           /\ at_path ["flow_runs"; "id"; "any_"] payload = Some (PList [PInt 2])).
Proof.
  split.
  - destruct (task_runs_scoped_to_parent_flow (Scenario.flow_run 1) (PInt 1)
                None eq_refl) as (Hctx & Hpayload & _).
    split; [exact Hctx | exact (Hpayload Scenario.resumed_tap PNone)].
  - destruct (task_runs_scoped_to_parent_flow (Scenario.flow_run 2) (PInt 2)
                None eq_refl) as (Hctx & Hpayload & _).
    split; [exact Hctx | exact (Hpayload Scenario.resumed_tap PNone)].
Defined.

(** ** Query parameters and the two definitions of [prepare_request] *)

Section query_parameters.
Context `{Runtime}.

(** C9, as the code has it. [get_url_params] gives no query parameters
    for any request, first page or link; a followed link keeps its query
    string inside the URL the request is sent to. *)
Theorem get_url_params_always_none :
  forall (self : prefectStream) (ctx : context) (tok : pyval),
    EventStream.get_url_params self ctx tok = PNone
    /\ (forall u,
          exists rq,
            EventStream.prepare_request self ctx (PUrl u) = Ok rq
            /\ req_params rq = PNone
            /\ req_url rq = geturl u).
Proof.
  intros self ctx tok. split.
  - reflexivity.
  - intro u. eexists. split.
    + apply prepare_request_with_link.
    + split; reflexivity.
Qed.

Lemma prepare_request_first_definition_first_page : forall self ctx tok,
  truthy tok = false ->
  EventStream.prepare_request_first_definition self ctx tok
  = (url <- EventStream.get_url self ctx ;;
     Ok (mkRequest EventStream.rest_method url PNone (http_headers self)
           (EventStream.prepare_request_payload self ctx tok))).
Proof.
  intros self ctx tok Htok.
  unfold EventStream.prepare_request_first_definition.
  now rewrite Htok.
Qed.

Lemma prepare_request_definitions_agree : forall self ctx tok,
  truthy tok = false ->
  EventStream.prepare_request_first_definition self ctx tok
  = EventStream.prepare_request self ctx tok.
Proof.
  intros self ctx tok Htok.
  rewrite prepare_request_first_definition_first_page by assumption.
  destruct (EventStream.get_url self ctx) as [base | e] eqn:Hurl.
  - now rewrite (prepare_request_first_page self ctx tok base).
  - now rewrite (prepare_request_first_page_raises self ctx tok e).
Qed.

(** C10. On the first page (token absent or falsy) the two definitions
    of [prepare_request] build the same request, or fail alike: method
    [rest_method], the stream's computed URL, the same parameters,
    headers and JSON body. They can differ only when a token is
    present. *)
Theorem prepare_request_definitions_agree_first_page :
  forall (self : prefectStream) (ctx : context) (tok : pyval),
    (truthy tok = false ->
       EventStream.prepare_request_first_definition self ctx tok
       = EventStream.prepare_request self ctx tok
       /\ forall base,
            EventStream.get_url self ctx = Ok base ->
            EventStream.prepare_request self ctx tok
            = Ok (mkRequest EventStream.rest_method base
                    (EventStream.get_url_params self ctx tok)
                    (http_headers self)
                    (EventStream.prepare_request_payload self ctx tok)))
    /\ (EventStream.prepare_request_first_definition self ctx tok
        <> EventStream.prepare_request self ctx tok ->
        truthy tok = true).
Proof.
  intros self ctx tok. split.
  - intro Htok. split.
    + now apply prepare_request_definitions_agree.
    + intros base Hurl. now apply prepare_request_first_page.
  - intro Hdiffer.
    destruct (truthy tok) eqn:Htok; [reflexivity |].
    exfalso. apply Hdiffer. now apply prepare_request_definitions_agree.
Qed.

End query_parameters.

(** At the link of the scenario the specified parameters are
    [{"cursor": "abc"}], and [get_url_params] returns [None]. *)
Lemma get_url_params_not_parsed_from_link :
  @get_url_params_as_specified Scenario.runtime (PUrl Scenario.next_token)
  = Some (PDict [("cursor", PStr "abc")])
  /\ EventStream.get_url_params Scenario.tap None (PUrl Scenario.next_token)
     = PNone
  /\ Some (EventStream.get_url_params Scenario.tap None (PUrl Scenario.next_token))
     <> @get_url_params_as_specified Scenario.runtime (PUrl Scenario.next_token).
Proof.
  split; [reflexivity | split; [reflexivity |]].
  intro Heq. vm_compute in Heq. discriminate Heq.
Qed.

Lemma prepare_request_definitions_agree_first_page_witness :
  @EventStream.prepare_request_first_definition Scenario.runtime
    Scenario.tap None PNone
  = @EventStream.prepare_request Scenario.runtime Scenario.tap None PNone
  /\ @EventStream.prepare_request Scenario.runtime Scenario.tap None PNone
     = Ok (mkRequest "POST" Scenario.events_url PNone
             (http_headers Scenario.tap)
             (EventStream.prepare_request_payload Scenario.tap None PNone)).
Proof.
  destruct (@prepare_request_definitions_agree_first_page Scenario.runtime
              Scenario.tap None PNone) as (Hfirst & _).
  destruct (Hfirst eq_refl) as (Hagree & Hshape).
  split.
  - exact Hagree.
  - exact (Hshape Scenario.events_url eq_refl).
Defined.

(** With a link as token the two definitions do differ: the first keeps
    POST and the stream's own URL, the second follows the link. *)
Lemma prepare_request_definitions_differ_on_link :
  @EventStream.prepare_request_first_definition Scenario.runtime
    Scenario.tap None (PUrl Scenario.next_token)
  = Ok (mkRequest "POST" Scenario.events_url PNone
          (http_headers Scenario.tap) PNone)
  /\ @EventStream.prepare_request Scenario.runtime Scenario.tap None
       (PUrl Scenario.next_token)
     = Ok (mkRequest "GET" Scenario.next_link PNone
             (http_headers Scenario.tap) PNone).
Proof. split; reflexivity. Qed.

(** ** The link-style paginator *)

Section link_paginator.
Context `{Runtime}.

Lemma get_next_url_of_dict : forall resp d,
  json resp = Ok (PDict d) ->
  MyHATEOASPaginator.get_next_url resp = Ok (dict_get d "next_page").
Proof.
  intros resp d Hjson.
  unfold MyHATEOASPaginator.get_next_url.
  rewrite (bind_ok _ _ _ _ _ Hjson). reflexivity.
Qed.

(** A response without a next link finishes the paginator, whatever
    state it is in. *)
Lemma advance_without_link_finishes : forall (st : MyHATEOASPaginator.t) resp,
  MyHATEOASPaginator.get_next_url resp = Ok PNone ->
  exists st',
    MyHATEOASPaginator.advance st resp = Ok st'
    /\ pagination.finished st' = true.
Proof.
  intros st resp Hnext.
  unfold MyHATEOASPaginator.advance, pagination.hateoas_advance,
    pagination.advance, pagination.hateoas_get_next.
  rewrite Hnext. cbn.
  eexists. split; reflexivity.
Qed.

(** C3. For a response whose JSON body is an object, [get_next_url]
    returns exactly the value of its [next_page] field; when the field is
    null or absent it returns [None] without raising, and advancing the
    paginator on that response finishes it. *)
Theorem get_next_url_is_next_page_field :
  forall (resp : Response) (d : pydict),
    json resp = Ok (PDict d) ->
    (forall v, dict_lookup "next_page" d = Some v ->
       MyHATEOASPaginator.get_next_url resp = Ok v)
    /\ (dict_lookup "next_page" d = Some PNone
        \/ dict_lookup "next_page" d = None ->
        MyHATEOASPaginator.get_next_url resp = Ok PNone
        /\ forall st : MyHATEOASPaginator.t,
             exists st',
               MyHATEOASPaginator.advance st resp = Ok st'
               /\ finished st' = true).
Proof.
  intros resp d Hjson.
  assert (Hget := get_next_url_of_dict resp d Hjson).
  unfold dict_get in Hget.
  split.
  - intros v Hv. now rewrite Hv in Hget.
  - intro Hnone.
    assert (Hnext : MyHATEOASPaginator.get_next_url resp = Ok PNone)
      by (destruct Hnone as [Hnull | Habsent];
          [now rewrite Hnull in Hget | now rewrite Habsent in Hget]).
    split; [exact Hnext |].
    intro st. now apply advance_without_link_finishes.
Qed.

End link_paginator.

(** The responses of the specification: a link is returned as it is; a
    null link and a missing one both end the pagination. *)
Lemma get_next_url_is_next_page_field_witness :
  MyHATEOASPaginator.get_next_url
    (mkResponse (Ok (PDict [("next_page", PStr "https://x/y?offset=5")])))
  = Ok (PStr "https://x/y?offset=5")
  /\ MyHATEOASPaginator.get_next_url Scenario.page2 = Ok PNone
  /\ (MyHATEOASPaginator.get_next_url
        (mkResponse (Ok (PDict [("events", PList [])]))) = Ok PNone
      /\ exists st',
           @MyHATEOASPaginator.advance Scenario.runtime
             MyHATEOASPaginator.new
             (mkResponse (Ok (PDict [("events", PList [])]))) = Ok st'
           /\ pagination.finished st' = true).
Proof.
  split; [| split].
  - destruct (@get_next_url_is_next_page_field Scenario.runtime
                (mkResponse (Ok (PDict [("next_page", PStr "https://x/y?offset=5")])))
                _ eq_refl) as (Hvalue & _).
    apply Hvalue. reflexivity.
  - destruct (@get_next_url_is_next_page_field Scenario.runtime
                Scenario.page2 _ eq_refl) as (_ & Hnone).
    apply Hnone. left. reflexivity.
  - destruct (@get_next_url_is_next_page_field Scenario.runtime
                (mkResponse (Ok (PDict [("events", PList [])])))
                _ eq_refl) as (_ & Hnone).
    destruct (Hnone (or_intror eq_refl)) as (Hnext & Hadvance).
    split; [exact Hnext | exact (Hadvance MyHATEOASPaginator.new)].
Defined.

(** ** The request loop *)

Section request_loop_facts.
Context `{Runtime} {S W : Type} `{Paginator S} `{Transport W}.
Variable self : prefectStream.
Variable ctx : context.

Lemma records_of_parsed : forall resp records,
  EventStream.parse_response resp = Ok records ->
  records_of resp = records.
Proof. intros resp records Hparse. unfold records_of. now rewrite Hparse. Qed.

Lemma records_of_unparsed : forall resp e,
  EventStream.parse_response resp = Raise e ->
  records_of resp = [].
Proof. intros resp e Hparse. unfold records_of. now rewrite Hparse. Qed.

(** One iteration of the loop, when every step of it succeeds. *)
Lemma request_loop_step : forall fuel w pg rq resp w' records pg',
  finished pg = false ->
  EventStream.prepare_request self ctx (current_value pg) = Ok rq ->
  decorated_request w rq ctx = (Ok resp, w') ->
  EventStream.parse_response resp = Ok records ->
  advance pg resp = Ok pg' ->
  EventStream.request_loop self ctx (Datatypes.S fuel) w pg
  = page rq resp records (EventStream.request_loop self ctx fuel w' pg').
Proof.
  intros fuel w pg rq resp w' records pg' Hfin Hprep Hsend Hparse Hadv.
  cbn [EventStream.request_loop].
  now rewrite Hfin, Hprep, Hsend, Hparse, Hadv.
Qed.

Lemma request_loop_finished : forall fuel w pg,
  finished pg = true ->
  EventStream.request_loop self ctx (Datatypes.S fuel) w pg = stop Finished.
Proof.
  intros fuel w pg Hfin. cbn [EventStream.request_loop]. now rewrite Hfin.
Qed.

(** Enough fuel runs the loop to its end on a page sequence over which
    the paginator finishes: one exchange per page, the pages' records in
    order. *)
Lemma request_loop_paginates : forall w pg pages,
  paginates self ctx w pg pages ->
  forall fuel, length pages < fuel ->
    let r := EventStream.request_loop self ctx fuel w pg in
    status r = Finished
    /\ request_counter r = length pages
    /\ map snd (exchanges r) = pages
    /\ emitted r = flat_map records_of pages.
Proof.
  induction 1 as [w pg Hfin
                 | w pg rq resp w' records pg' pages Hfin Hprep Hsend Hparse
                     Hadv Hrest IH];
    intros fuel Hfuel; (destruct fuel as [| fuel]; [cbn in Hfuel; lia |]).
  - rewrite request_loop_finished by assumption. cbn. auto.
  - rewrite (request_loop_step fuel w pg rq resp w' records pg') by assumption.
    cbn in Hfuel.
    destruct (IH fuel ltac:(lia)) as (Hstatus & Hcount & Hpages & Hemit).
    cbn. rewrite Hcount, Hpages, Hemit, (records_of_parsed resp records Hparse).
    auto.
Qed.

(** Whatever the loop does and however it stops, what it yields is what
    the parser gives for the responses it received, response after
    response; those responses are the transport's answers to its
    requests, in the order the requests were sent, each counted once. *)
Lemma request_loop_emits_parsed : forall fuel w pg,
  let r := EventStream.request_loop self ctx fuel w pg in
  emitted r = flat_map (fun x => records_of (snd x)) (exchanges r)
  /\ served ctx w (exchanges r)
  /\ request_counter r = length (exchanges r).
Proof.
  induction fuel as [| fuel IH]; intros w pg; cbn zeta.
  - cbn. auto.
  - cbn [EventStream.request_loop].
    destruct (finished pg); [cbn; auto |].
    destruct (EventStream.prepare_request self ctx (current_value pg))
      as [rq | e]; [| cbn; auto].
    destruct (decorated_request w rq ctx) as [[resp | e] w'] eqn:Hsend;
      [| cbn; auto].
    destruct (EventStream.parse_response resp) as [records | e] eqn:Hparse.
    + destruct (advance pg resp) as [pg' | e].
      * destruct (IH w' pg') as (Hemit & Hserved & Hcount).
        cbn. rewrite (records_of_parsed _ _ Hparse), Hemit, Hcount.
        split; [reflexivity | split; [| reflexivity]].
        exists w'. split; [exact Hsend | exact Hserved].
      * cbn. rewrite (records_of_parsed _ _ Hparse).
        split; [reflexivity | split; [| reflexivity]].
        exists w'. split; [exact Hsend | exact I].
    + cbn. rewrite (records_of_unparsed _ _ Hparse).
      split; [reflexivity | split; [| reflexivity]].
      exists w'. split; [exact Hsend | exact I].
Qed.

(** A run that stopped for a reason of its own is not changed by more
    fuel: the bound is no part of the result. *)
Lemma request_loop_fuel_stable : forall fuel w pg,
  status (EventStream.request_loop self ctx fuel w pg) <> OutOfFuel ->
  forall extra,
    EventStream.request_loop self ctx (fuel + extra) w pg
    = EventStream.request_loop self ctx fuel w pg.
Proof.
  induction fuel as [| fuel IH]; intros w pg Hstop extra.
  - cbn in Hstop. congruence.
  - cbn [EventStream.request_loop Nat.add] in *.
    destruct (finished pg); [reflexivity |].
    destruct (EventStream.prepare_request self ctx (current_value pg))
      as [rq | e]; [| reflexivity].
    destruct (decorated_request w rq ctx) as [[resp | e] w']; [| reflexivity].
    destruct (EventStream.parse_response resp) as [records | e];
      [| reflexivity].
    destruct (advance pg resp) as [pg' | e]; [| reflexivity].
    cbn in Hstop. now rewrite (IH w' pg' Hstop extra).
Qed.

(** A page sequence over which the paginator finishes is an observation
    of a finished run. *)
Lemma paginates_observed : forall w pg pages,
  paginates self ctx w pg pages ->
  observed self ctx w pg pages Finished.
Proof.
  induction 1 as [w pg Hfin
                 | w pg rq resp w' records pg' pages Hfin Hprep Hsend Hparse
                     Hadv Hrest IH].
  - now apply observed_finished.
  - now apply (observed_page self ctx w pg rq resp w' records pg').
Qed.

(** Every start of the loop has an observation of every length bound:
    one that stopped by itself within [n] pages, or one of exactly [n]
    pages that is still going. *)
Lemma observed_exists : forall n w pg,
  exists pages o,
    observed self ctx w pg pages o
    /\ length pages <= n
    /\ (o = OutOfFuel -> length pages = n).
Proof.
  induction n as [| n IH]; intros w pg.
  - exists [], OutOfFuel. split; [apply observed_cut | cbn; auto].
  - destruct (finished pg) eqn:Hfin.
    { exists [], Finished. split; [now apply observed_finished |].
      split; [cbn; lia | discriminate]. }
    destruct (EventStream.prepare_request self ctx (current_value pg))
      as [rq | e] eqn:Hprep.
    2:{ exists [], (Raised e).
        split; [now apply observed_prepare_raises |].
        split; [cbn; lia | discriminate]. }
    destruct (decorated_request w rq ctx) as [[resp | e] w'] eqn:Hsend.
    2:{ exists [], (Raised e).
        split; [now apply (observed_transport_raises self ctx w pg rq e w') |].
        split; [cbn; lia | discriminate]. }
    destruct (EventStream.parse_response resp) as [records | e] eqn:Hparse.
    2:{ exists [resp], (Raised e).
        split; [now apply (observed_parse_raises self ctx w pg rq resp w') |].
        split; [cbn; lia | discriminate]. }
    destruct (advance pg resp) as [pg' | e] eqn:Hadv.
    2:{ exists [resp], (Raised e).
        split;
          [now apply (observed_advance_raises self ctx w pg rq resp w' records) |].
        split; [cbn; lia | discriminate]. }
    destruct (IH w' pg') as (pages & o & Hobs & Hlen & Hcut).
    exists (resp :: pages), o.
    split; [now apply (observed_page self ctx w pg rq resp w' records pg') |].
    split; [cbn; lia | intro Ho; cbn; now rewrite (Hcut Ho)].
Qed.

(** The loop function computes what is observed: the records of the
    pages served, page after page and in the parser's order within a
    page, the pages themselves as the responses received, one counted
    request per page, and the observed way of stopping. *)
Lemma request_loop_observed : forall w pg pages o,
  observed self ctx w pg pages o ->
  forall fuel, fuel_for pages o fuel ->
    emitted (EventStream.request_loop self ctx fuel w pg)
    = flat_map records_of pages
    /\ map snd (exchanges (EventStream.request_loop self ctx fuel w pg)) = pages
    /\ request_counter (EventStream.request_loop self ctx fuel w pg)
       = length pages
    /\ status (EventStream.request_loop self ctx fuel w pg) = o.
Proof.
  induction 1 as [w pg
                 | w pg Hfin
                 | w pg e Hfin Hprep
                 | w pg rq e w' Hfin Hprep Hsend
                 | w pg rq resp w' e Hfin Hprep Hsend Hparse
                 | w pg rq resp w' records e Hfin Hprep Hsend Hparse Hadv
                 | w pg rq resp w' records pg' pages o Hfin Hprep Hsend Hparse
                     Hadv Hrest IH];
    intros fuel Hfuel; cbn [fuel_for length] in Hfuel.
  - subst fuel. cbn. auto.
  - destruct fuel as [| fuel]; [lia |].
    rewrite request_loop_finished by assumption. cbn. auto.
  - destruct fuel as [| fuel]; [lia |].
    cbn [EventStream.request_loop]. rewrite Hfin, Hprep. cbn. auto.
  - destruct fuel as [| fuel]; [lia |].
    cbn [EventStream.request_loop]. rewrite Hfin, Hprep, Hsend. cbn. auto.
  - destruct fuel as [| fuel]; [lia |].
    cbn [EventStream.request_loop]. rewrite Hfin, Hprep, Hsend, Hparse.
    cbn. rewrite (records_of_unparsed resp e Hparse). auto.
  - destruct fuel as [| fuel]; [lia |].
    cbn [EventStream.request_loop]. rewrite Hfin, Hprep, Hsend, Hparse, Hadv.
    cbn. rewrite (records_of_parsed resp records Hparse), app_nil_r. auto.
  - assert (Hfuel' : exists fuel', fuel = Datatypes.S fuel'
                                   /\ fuel_for pages o fuel').
    { destruct fuel as [| fuel'];
        [destruct o; cbn in Hfuel; (lia || discriminate Hfuel) |].
      exists fuel'. split; [reflexivity |].
      destruct o; cbn in Hfuel |- *; (lia || congruence). }
    destruct Hfuel' as (fuel' & -> & Hfuel').
    rewrite (request_loop_step fuel' w pg rq resp w' records pg') by assumption.
    destruct (IH fuel' Hfuel') as (Hemit & Hpages & Hcount & Hstatus).
    cbn. rewrite Hemit, Hpages, Hcount, Hstatus,
      (records_of_parsed resp records Hparse).
    auto.
Qed.

End request_loop_facts.

Section request_records_facts.
Context `{Runtime} {W : Type} `{Transport W}.

(** With a path that computes, [request_records] is the loop on a new
    paginator. *)
Lemma request_records_unfold : forall self ctx fuel (w : W),
  (exists p, EventStream.path self = Ok p) ->
  EventStream.request_records self ctx fuel w
  = EventStream.request_loop self ctx fuel w EventStream.get_new_paginator.
Proof.
  intros self ctx fuel w (p & Hpath).
  unfold EventStream.request_records. now rewrite Hpath.
Qed.

(** A new paginator is not finished, so a page sequence it paginates has
    a first request, and that request needed the path. *)
Lemma paginates_path_ok : forall self ctx (w : W) pages,
  paginates self ctx w EventStream.get_new_paginator pages ->
  exists p, EventStream.path self = Ok p.
Proof.
  intros self ctx w pages Hpages.
  inversion Hpages as [w0 pg Hfin
                      | w0 pg rq resp w' records pg' rest Hfin Hprep];
    subst.
  - change (finished EventStream.get_new_paginator) with false in Hfin.
    discriminate Hfin.
  - change (current_value EventStream.get_new_paginator) with PNone in Hprep.
    unfold EventStream.prepare_request, EventStream.get_url, sdk_get_url in Hprep.
    destruct (EventStream.path self) as [p | e].
    + now exists p.
    + cbn in Hprep. discriminate Hprep.
Qed.

(** C6. When the page sequence served to [request_records] is one over
    which the paginator reports finished after finitely many advances
    (one per page), the loop terminates: any fuel above the number of
    pages gives the finished run, with one request sent and counted per
    page and the finite list of the pages' records yielded. *)
Theorem request_records_terminates :
  forall (self : prefectStream) (ctx : context) (w : W)
         (pages : list Response),
    paginates self ctx w EventStream.get_new_paginator pages ->
    forall fuel, length pages < fuel ->
      status (EventStream.request_records self ctx fuel w) = Finished
      /\ request_counter (EventStream.request_records self ctx fuel w)
         = length pages
      /\ map snd (exchanges (EventStream.request_records self ctx fuel w))
         = pages
      /\ emitted (EventStream.request_records self ctx fuel w)
         = flat_map records_of pages.
Proof.
  intros self ctx w pages Hpages fuel Hfuel.
  rewrite (request_records_unfold self ctx fuel w)
    by (eapply paginates_path_ok; exact Hpages).
  exact (request_loop_paginates self ctx w _ pages Hpages fuel Hfuel).
Qed.

(** Bookkeeping of a run, for every transport and bound: what is
    yielded is what the parser gives for the logged responses, the
    logged exchanges are the transport's answers in sending order, and
    each is counted once. *)
Lemma request_records_emits_in_order :
  forall (self : prefectStream) (ctx : context) (fuel : nat) (w : W),
    emitted (EventStream.request_records self ctx fuel w)
    = flat_map (fun x => records_of (snd x))
        (exchanges (EventStream.request_records self ctx fuel w))
    /\ served ctx w (exchanges (EventStream.request_records self ctx fuel w))
    /\ request_counter (EventStream.request_records self ctx fuel w)
       = length (exchanges (EventStream.request_records self ctx fuel w)).
Proof.
  intros self ctx fuel w.
  destruct (EventStream.path self) as [p | e] eqn:Hpath.
  - rewrite (request_records_unfold self ctx fuel w) by (exists p; exact Hpath).
    exact (request_loop_emits_parsed self ctx fuel w EventStream.get_new_paginator).
  - unfold EventStream.request_records. rewrite Hpath. cbn. auto.
Qed.

(** An observation that starts on a new paginator with a path that does
    not compute can only be the failure to prepare the first request, or
    the empty observation. *)
Lemma observed_without_path : forall self ctx (w : W) pages o e,
  EventStream.path self = Raise e ->
  observed self ctx w EventStream.get_new_paginator pages o ->
  pages = [] /\ (o = OutOfFuel \/ o = Raised e).
Proof.
  intros self ctx w pages o e Hpath Hobs.
  assert (Hprep : EventStream.prepare_request self ctx
                    (current_value EventStream.get_new_paginator) = Raise e).
  { change (current_value EventStream.get_new_paginator) with PNone.
    apply prepare_request_first_page_raises; [reflexivity |].
    unfold EventStream.get_url, sdk_get_url. now rewrite Hpath. }
  inversion Hobs as [ w0 pg0
                    | w0 pg0 Hfin
                    | w0 pg0 e0 Hfin Hp
                    | w0 pg0 rq e0 w' Hfin Hp
                    | w0 pg0 rq resp w' e0 Hfin Hp
                    | w0 pg0 rq resp w' records e0 Hfin Hp
                    | w0 pg0 rq resp w' records pg' rest o0 Hfin Hp ];
    subst; try (rewrite Hprep in Hp; discriminate Hp).
  - auto.
  - change (finished EventStream.get_new_paginator) with false in Hfin.
    discriminate Hfin.
  - rewrite Hprep in Hp. injection Hp as <-. auto.
Qed.

(** C7. For every page sequence the transport serves to
    [request_records], whether the run then finishes, fails at some
    step, or is looked at while still going, the records yielded are
    exactly the records the parser gives for those pages: the records of
    the first page, then those of the second, and so on in request
    order, each page's records in the parser's order, nothing added,
    dropped or reordered. The responses received are those pages, one
    counted request each, and the run stops the way the page sequence
    does. *)
Theorem request_records_yields_pages_in_order :
  forall (self : prefectStream) (ctx : context) (w : W)
         (pages : list Response) (o : outcome),
    observed self ctx w EventStream.get_new_paginator pages o ->
    forall fuel, fuel_for pages o fuel ->
      emitted (EventStream.request_records self ctx fuel w)
      = flat_map records_of pages
      /\ map snd (exchanges (EventStream.request_records self ctx fuel w))
         = pages
      /\ request_counter (EventStream.request_records self ctx fuel w)
         = length pages
      /\ (o <> OutOfFuel \/ (exists p, EventStream.path self = Ok p) ->
          status (EventStream.request_records self ctx fuel w) = o).
Proof.
  intros self ctx w pages o Hobs fuel Hfuel.
  destruct (EventStream.path self) as [p | e] eqn:Hpath.
  - rewrite (request_records_unfold self ctx fuel w) by (exists p; exact Hpath).
    destruct (request_loop_observed self ctx w _ pages o Hobs fuel Hfuel)
      as (Hemit & Hpages & Hcount & Hstatus).
    auto.
  - destruct (observed_without_path self ctx w pages o e Hpath Hobs)
      as (-> & Ho).
    unfold EventStream.request_records. rewrite Hpath. cbn.
    repeat split.
    intros [Hcomplete | (p & Hp)]; [| discriminate Hp].
    destruct Ho as [-> | ->]; [now destruct Hcomplete | reflexivity].
Qed.

End request_records_facts.

Section linked_pages.
Context `{Runtime}.
Variable self : prefectStream.
Variable ctx : context.

Lemma truthy_nonempty_string : forall s, s <> "" -> truthy (PStr s) = true.
Proof.
  intros s Hs. cbn. apply negb_true_iff. now apply String.eqb_neq.
Qed.




End linked_pages.

(** The events scenario of the specification is such a page sequence:
    the first page's link leads to the second page, which has none. *)
Lemma scenario_paginates :
  @paginates Scenario.runtime _ _ (@MyHATEOASPaginator.paginator Scenario.runtime)
    Scenario.server Scenario.tap None
    Scenario.events_api EventStream.get_new_paginator
    [Scenario.page1; Scenario.page2].
Proof.
  eapply paginates_page;
    [reflexivity | reflexivity | reflexivity | reflexivity | reflexivity |].
  eapply paginates_page;
    [reflexivity | reflexivity | reflexivity | reflexivity | reflexivity |].
  apply paginates_done. reflexivity.
Qed.

Lemma request_records_terminates_witness :
  status (@EventStream.request_records Scenario.runtime _ Scenario.server
            Scenario.tap None 3 Scenario.events_api) = Finished
  /\ request_counter (@EventStream.request_records Scenario.runtime _
                        Scenario.server Scenario.tap None 3
                        Scenario.events_api) = 2
  /\ map snd (exchanges (@EventStream.request_records Scenario.runtime _
                           Scenario.server Scenario.tap None 3
                           Scenario.events_api))
     = [Scenario.page1; Scenario.page2]
  /\ emitted (@EventStream.request_records Scenario.runtime _ Scenario.server
                Scenario.tap None 3 Scenario.events_api)
     = [Scenario.event 1; Scenario.event 2; Scenario.event 3].
Proof.
  exact (@request_records_terminates Scenario.runtime _ Scenario.server
           Scenario.tap None Scenario.events_api
           [Scenario.page1; Scenario.page2] scenario_paginates 3 (le_n 3)).
Defined.

(** With the second page missing from the server, the first page is
    served and the next request fails. *)
Lemma scenario_observed_failure :
  @observed Scenario.runtime _ _ (@MyHATEOASPaginator.paginator Scenario.runtime)
    Scenario.server Scenario.tap None
    [(("POST", Scenario.events_url), Scenario.page1)]
    EventStream.get_new_paginator
    [Scenario.page1] (Raised (RequestException "404")).
Proof.
  eapply observed_page;
    [reflexivity | reflexivity | reflexivity | reflexivity | reflexivity |].
  eapply observed_transport_raises; reflexivity.
Qed.

(** The run of the scenario yields the two records of the first page and
    then the record of the second; the run whose second request fails
    has yielded the first page's records, in order, when it fails. *)
Lemma request_records_yields_pages_in_order_witness :
  (emitted (@EventStream.request_records Scenario.runtime _ Scenario.server
              Scenario.tap None 3 Scenario.events_api)
   = [Scenario.event 1; Scenario.event 2; Scenario.event 3]
   /\ map snd (exchanges (@EventStream.request_records Scenario.runtime _
                            Scenario.server Scenario.tap None 3
                            Scenario.events_api))
      = [Scenario.page1; Scenario.page2]
   /\ status (@EventStream.request_records Scenario.runtime _ Scenario.server
                Scenario.tap None 3 Scenario.events_api) = Finished)
  /\ (emitted (@EventStream.request_records Scenario.runtime _ Scenario.server
                 Scenario.tap None 3
                 [(("POST", Scenario.events_url), Scenario.page1)])
      = [Scenario.event 1; Scenario.event 2]
      /\ request_counter
           (@EventStream.request_records Scenario.runtime _ Scenario.server
              Scenario.tap None 3
              [(("POST", Scenario.events_url), Scenario.page1)]) = 1
      /\ status (@EventStream.request_records Scenario.runtime _ Scenario.server
                   Scenario.tap None 3
                   [(("POST", Scenario.events_url), Scenario.page1)])
         = Raised (RequestException "404")).
Proof.
  split.
  - destruct (@request_records_yields_pages_in_order Scenario.runtime _
                Scenario.server Scenario.tap None Scenario.events_api
                [Scenario.page1; Scenario.page2] Finished
                (paginates_observed _ _ _ _ _ scenario_paginates) 3 (le_n 3))
      as (Hemit & Hpages & _ & Hstatus).
    split; [exact Hemit | split; [exact Hpages |]].
    apply Hstatus. left. discriminate.
  - destruct (@request_records_yields_pages_in_order Scenario.runtime _
                Scenario.server Scenario.tap None
                [(("POST", Scenario.events_url), Scenario.page1)]
                [Scenario.page1] (Raised (RequestException "404"))
                scenario_observed_failure 3 (le_S _ _ (le_n 2)))
      as (Hemit & _ & Hcount & Hstatus).
    split; [exact Hemit | split; [exact Hcount |]].
    apply Hstatus. left. discriminate.
Defined.

(** The requests of that run: a POST with the filter payload to the
    events endpoint, then a GET to the link with no body. *)
Example scenario_requests :
  map (fun x => (req_method (fst x), req_url (fst x), req_json (fst x)))
      (exchanges (@EventStream.request_records Scenario.runtime _
                    Scenario.server Scenario.tap None 3 Scenario.events_api))
  = [ ("POST", Scenario.events_url,
       EventStream.prepare_request_payload Scenario.tap None PNone);
      ("GET", Scenario.next_link, PNone) ].
Proof. vm_compute. reflexivity. Qed.

(** A run the transport fails on keeps what it yielded before: with the
    second page missing from the server, the records of the first page
    are out and the run ends in the transport's exception. *)
Example scenario_transport_failure :
  let r := @EventStream.request_records Scenario.runtime _ Scenario.server
             Scenario.tap None 3 [(("POST", Scenario.events_url), Scenario.page1)] in
  emitted r = [Scenario.event 1; Scenario.event 2]
  /\ request_counter r = 1
  /\ status r = Raised (RequestException "404").
Proof. vm_compute. repeat split. Qed.

(** * Further properties of the streams *)

(** ** The [path] properties *)

Section paths.
Context `{Runtime}.

Lemma string_append_assoc : forall a b c : string,
  ((a ++ b) ++ c)%string = (a ++ (b ++ c))%string.
Proof.
  induction a as [| ch a IH]; intros b c; cbn.
  - reflexivity.
  - now rewrite IH.
Qed.

Lemma workspace_path_no_account : forall self tail,
  dict_lookup "account_id" (config self) = None ->
  workspace_path self tail = Raise (KeyError "account_id").
Proof.
  intros self tail Ha. unfold workspace_path, dict_getitem. now rewrite Ha.
Qed.

Lemma workspace_path_no_workspace : forall self tail a,
  dict_lookup "account_id" (config self) = Some a ->
  dict_lookup "workspace_id" (config self) = None ->
  workspace_path self tail = Raise (KeyError "workspace_id").
Proof.
  intros self tail a Ha Hw. unfold workspace_path, dict_getitem.
  now rewrite Ha, Hw.
Qed.

Lemma workspace_path_ok : forall self tail a w,
  dict_lookup "account_id" (config self) = Some a ->
  dict_lookup "workspace_id" (config self) = Some w ->
  workspace_path self tail
  = Ok ("/accounts/" ++ py_format a ++ "/workspaces/" ++ py_format w ++ tail).
Proof.
  intros self tail a w Ha Hw. unfold workspace_path, dict_getitem.
  now rewrite Ha, Hw.
Qed.

(** X1. The three [path] properties need both identifiers of the
    configuration: without [account_id] each raises [KeyError] for it
    (also when [workspace_id] is missing too); with [account_id] but no
    [workspace_id] each raises [KeyError] for [workspace_id]; with both
    each is the account and workspace prefix followed by the stream's
    own tail. *)
Theorem path_needs_both_identifiers :
  forall (self : prefectStream),
    (dict_lookup "account_id" (config self) = None ->
       FlowRunStream.path self = Raise (KeyError "account_id")
       /\ TaskRunSubStream.path self = Raise (KeyError "account_id")
       /\ EventStream.path self = Raise (KeyError "account_id"))
    /\ (forall a,
          dict_lookup "account_id" (config self) = Some a ->
          dict_lookup "workspace_id" (config self) = None ->
          FlowRunStream.path self = Raise (KeyError "workspace_id")
          /\ TaskRunSubStream.path self = Raise (KeyError "workspace_id")
          /\ EventStream.path self = Raise (KeyError "workspace_id"))
    /\ (forall a w,
          dict_lookup "account_id" (config self) = Some a ->
          dict_lookup "workspace_id" (config self) = Some w ->
          exists prefix,
            prefix = "/accounts/" ++ py_format a ++ "/workspaces/" ++ py_format w
            /\ FlowRunStream.path self = Ok (prefix ++ "/flow_runs/filter")
            /\ TaskRunSubStream.path self = Ok (prefix ++ "/task_runs/filter")
            /\ EventStream.path self = Ok (prefix ++ "/events/filter")).
Proof.
  intro self. split; [| split].
  - intro Ha. repeat split; now apply workspace_path_no_account.
  - intros a Ha Hw. repeat split; now apply (workspace_path_no_workspace _ _ a).
  - intros a w Ha Hw. eexists. split; [reflexivity |].
    unfold FlowRunStream.path, TaskRunSubStream.path, EventStream.path.
    rewrite !(workspace_path_ok self _ a w Ha Hw).
    rewrite !string_append_assoc.
    repeat split; reflexivity.
Qed.

Lemma append_cancel_l : forall s t1 t2 : string,
  (s ++ t1)%string = (s ++ t2)%string -> t1 = t2.
Proof.
  induction s as [| c s IH]; intros t1 t2 Heq; cbn in Heq.
  - exact Heq.
  - injection Heq as Heq. now apply IH.
Qed.

Lemma path_is_workspace_path : forall self tail p,
  workspace_path self tail = Ok p ->
  exists prefix, p = (prefix ++ tail)%string
                 /\ forall tail', workspace_path self tail' = Ok (prefix ++ tail')%string.
Proof.
  intros self tail p Hp. unfold workspace_path, dict_getitem in *.
  destruct (dict_lookup "account_id" (config self)) as [a |];
    [| discriminate Hp].
  destruct (dict_lookup "workspace_id" (config self)) as [w |];
    [| discriminate Hp].
  cbn in Hp. injection Hp as <-.
  exists ("/accounts/" ++ py_format a ++ "/workspaces/" ++ py_format w).
  split; [| intro tail']; cbn [bind];
    rewrite !string_append_assoc; reflexivity.
Qed.

(** X2. For one configuration the three record sources never share an
    endpoint path: whenever the paths compute they are pairwise
    different. *)
Theorem paths_pairwise_distinct :
  forall (self : prefectStream) (flows tasks events : string),
    FlowRunStream.path self = Ok flows ->
    TaskRunSubStream.path self = Ok tasks ->
    EventStream.path self = Ok events ->
    flows <> tasks /\ flows <> events /\ tasks <> events.
Proof.
  intros self flows tasks events Hf Ht He.
  destruct (path_is_workspace_path self _ _ Hf) as (prefix & -> & Hall).
  unfold TaskRunSubStream.path in Ht. unfold EventStream.path in He.
  rewrite Hall in Ht, He.
  injection Ht as <-. injection He as <-.
  repeat split; intro Heq; apply append_cancel_l in Heq; discriminate Heq.
Qed.

End paths.

Lemma path_needs_both_identifiers_witness :
  (@EventStream.path Scenario.runtime
     (mkStream [("workspace_id", PStr "ws")] "" PNone [] (fun _ => PNone))
   = Raise (KeyError "account_id"))
  /\ (@FlowRunStream.path Scenario.runtime
        (mkStream [("account_id", PStr "acct")] "" PNone [] (fun _ => PNone))
      = Raise (KeyError "workspace_id"))
  /\ (@TaskRunSubStream.path Scenario.runtime Scenario.tap
      = Ok "/accounts/acct/workspaces/ws/task_runs/filter").
Proof.
  split; [| split].
  - destruct (@path_needs_both_identifiers Scenario.runtime
                (mkStream [("workspace_id", PStr "ws")] "" PNone []
                   (fun _ => PNone))) as (Hnone & _).
    apply Hnone. reflexivity.
  - destruct (@path_needs_both_identifiers Scenario.runtime
                (mkStream [("account_id", PStr "acct")] "" PNone []
                   (fun _ => PNone))) as (_ & Hworkspace & _).
    apply (Hworkspace (PStr "acct")); reflexivity.
  - destruct (@path_needs_both_identifiers Scenario.runtime Scenario.tap)
      as (_ & _ & Hboth).
    destruct (Hboth (PStr "acct") (PStr "ws") eq_refl eq_refl)
      as (prefix & -> & _ & Htasks & _).
    exact Htasks.
Defined.

Lemma paths_pairwise_distinct_witness :
  "/accounts/acct/workspaces/ws/flow_runs/filter"
  <> "/accounts/acct/workspaces/ws/task_runs/filter"
  /\ "/accounts/acct/workspaces/ws/flow_runs/filter"
     <> "/accounts/acct/workspaces/ws/events/filter"
  /\ "/accounts/acct/workspaces/ws/task_runs/filter"
     <> "/accounts/acct/workspaces/ws/events/filter".
Proof.
  exact (@paths_pairwise_distinct Scenario.runtime Scenario.tap _ _ _
           eq_refl eq_refl eq_refl).
Defined.

(** ** Edge cases of the payload builders *)

Section payload_edges.

(** X3. A bookmark that Python takes as false (an empty string, zero,
    [False], an empty list or dict, as well as [None]) counts as no
    bookmark: both the flow-runs filter and the first-page events filter
    then start from the configured [start_date]. *)
Theorem falsy_cursor_falls_back_to_start_date :
  forall (self : prefectStream) (ctx : context) (tok : pyval),
    truthy (get_starting_replication_key_value self ctx) = false ->
    at_path ["flow_runs"; "expected_start_time"; "after_"]
      (FlowRunStream.prepare_request_payload self ctx tok)
    = Some (dict_get (config self) "start_date")
    /\ at_path ["filter"; "occurred"; "since"]
         (EventStream.prepare_request_payload self ctx PNone)
       = Some (dict_get (config self) "start_date").
Proof.
  intros self ctx tok Hfalsy. split; cbn.
  - now rewrite (py_or_falsy _ _ Hfalsy).
  - now rewrite (py_or_falsy _ _ Hfalsy).
Qed.

(** X4. A configuration without [start_date] is no error for the payload
    builders: with no usable bookmark either, the payloads are built all
    the same and their time filter is [None]. *)
Theorem payload_without_cursor_or_start_date :
  forall (self : prefectStream) (ctx : context) (tok : pyval),
    truthy (get_starting_replication_key_value self ctx) = false ->
    dict_lookup "start_date" (config self) = None ->
    at_path ["flow_runs"; "expected_start_time"; "after_"]
      (FlowRunStream.prepare_request_payload self ctx tok)
    = Some PNone
    /\ at_path ["filter"; "occurred"; "since"]
         (EventStream.prepare_request_payload self ctx PNone)
       = Some PNone.
Proof.
  intros self ctx tok Hfalsy Hstart.
  assert (Hdate : py_or (get_starting_replication_key_value self ctx)
                        (dict_get (config self) "start_date") = PNone).
  { rewrite (py_or_falsy _ _ Hfalsy). unfold dict_get. now rewrite Hstart. }
  split; cbn; now rewrite Hdate.
Qed.

End payload_edges.

Lemma falsy_cursor_falls_back_to_start_date_witness :
  at_path ["flow_runs"; "expected_start_time"; "after_"]
    (FlowRunStream.prepare_request_payload
       (mkStream (config Scenario.tap) "" (PInt 200) [] (fun _ => PStr ""))
       None (PInt 200))
  = Some (PStr "2023-01-01T00:00:00Z")
  /\ at_path ["filter"; "occurred"; "since"]
       (EventStream.prepare_request_payload
          (mkStream (config Scenario.tap) "" (PInt 200) [] (fun _ => PStr ""))
          None PNone)
     = Some (PStr "2023-01-01T00:00:00Z").
Proof.
  exact (falsy_cursor_falls_back_to_start_date
           (mkStream (config Scenario.tap) "" (PInt 200) [] (fun _ => PStr ""))
           None (PInt 200) eq_refl).
Defined.

Lemma payload_without_cursor_or_start_date_witness :
  at_path ["flow_runs"; "expected_start_time"; "after_"]
    (FlowRunStream.prepare_request_payload
       (mkStream [("account_id", PStr "acct")] "" (PInt 200) [] (fun _ => PNone))
       None PNone)
  = Some PNone
  /\ at_path ["filter"; "occurred"; "since"]
       (EventStream.prepare_request_payload
          (mkStream [("account_id", PStr "acct")] "" (PInt 200) [] (fun _ => PNone))
          None PNone)
     = Some PNone.
Proof.
  exact (payload_without_cursor_or_start_date
           (mkStream [("account_id", PStr "acct")] "" (PInt 200) []
              (fun _ => PNone))
           None PNone eq_refl eq_refl).
Defined.

Section page_dependence.


End page_dependence.


(** ** Edge cases of the parent and child streams *)

Section parent_child_edges.

(** X6. The task-runs payload cannot be built without a context: with
    [None] it raises [AttributeError] for the missing [get]. A context
    that is a dict but has no [flow_id] raises nothing: the payload then
    asks for the flow runs whose id is in [[None]]. *)
Theorem task_runs_payload_needs_context :
  forall (self : prefectStream) (tok : pyval),
    TaskRunSubStream.prepare_request_payload self None tok
    = Raise (AttributeError "get")
    /\ (forall d,
          dict_lookup "flow_id" d = None ->
          exists payload,
            TaskRunSubStream.prepare_request_payload self (Some d) tok
            = Ok payload
            /\ at_path ["flow_runs"; "id"; "any_"] payload
               = Some (PList [PNone])).
Proof.
  intros self tok. split.
  - reflexivity.
  - intros d Hd. eexists. split.
    + unfold TaskRunSubStream.prepare_request_payload, context_get, dict_get.
      rewrite Hd. reflexivity.
    + reflexivity.
Qed.

(** X7. [get_child_context] reads nothing but the record's [id]: a
    record without one raises [KeyError] for [id], and two records with
    the same [id] give the same child context whatever their other
    fields and whatever the parents' own contexts are. *)
Theorem child_context_reads_only_id :
  forall (record record' : pydict) (ctx ctx' : context),
    (dict_lookup "id" record = None ->
       FlowRunStream.get_child_context record ctx = Raise (KeyError "id"))
    /\ (dict_lookup "id" record = dict_lookup "id" record' ->
        FlowRunStream.get_child_context record ctx
        = FlowRunStream.get_child_context record' ctx').
Proof.
  intros record record' ctx ctx'. split.
  - intro Hid. unfold FlowRunStream.get_child_context, dict_getitem.
    now rewrite Hid.
  - intro Hsame. unfold FlowRunStream.get_child_context, dict_getitem.
    now rewrite Hsame.
Qed.

End parent_child_edges.

Lemma task_runs_payload_needs_context_witness :
  TaskRunSubStream.prepare_request_payload Scenario.tap None PNone
  = Raise (AttributeError "get")
  /\ exists payload,
       TaskRunSubStream.prepare_request_payload Scenario.tap
         (Some [("deployment_id", PInt 7)]) PNone = Ok payload
       /\ at_path ["flow_runs"; "id"; "any_"] payload = Some (PList [PNone]).
Proof.
  destruct (task_runs_payload_needs_context Scenario.tap PNone)
    as (Hnone & Hmissing).
  split; [exact Hnone |].
  exact (Hmissing [("deployment_id", PInt 7)] eq_refl).
Defined.

Lemma child_context_reads_only_id_witness :
  FlowRunStream.get_child_context [("name", PStr "nightly")] None
  = Raise (KeyError "id")
  /\ FlowRunStream.get_child_context (Scenario.flow_run 1) None
     = FlowRunStream.get_child_context [("id", PInt 1)]
         (Some [("flow_id", PInt 9)]).
Proof.
  split.
  - exact (proj1 (child_context_reads_only_id [("name", PStr "nightly")] []
                    None None) eq_refl).
  - exact (proj2 (child_context_reads_only_id (Scenario.flow_run 1)
                    [("id", PInt 1)] None (Some [("flow_id", PInt 9)]))
             eq_refl).
Defined.

(** ** Edge cases of the events requests *)

Section events_request_edges.
Context `{Runtime}.

(** X8. [get_next_url] has no handling of its own for a bad body: a
    failure of [response.json()] is raised as it is, and a JSON body
    that is not an object (a list, a string, a number, [null]) raises
    [AttributeError] for the missing [get]. *)
Theorem get_next_url_bad_body :
  forall (resp : Response),
    (forall e, json resp = Raise e ->
       MyHATEOASPaginator.get_next_url resp = Raise e)
    /\ (forall body,
          json resp = Ok body ->
          (forall d, body <> PDict d) ->
          MyHATEOASPaginator.get_next_url resp = Raise (AttributeError "get")).
Proof.
  intro resp. split.
  - intros e Hjson. unfold MyHATEOASPaginator.get_next_url.
    now rewrite Hjson.
  - intros body Hjson Hnot. unfold MyHATEOASPaginator.get_next_url.
    rewrite Hjson. cbn.
    destruct body as [| b | n | s | l | d | u]; try reflexivity.
    now destruct (Hnot d).
Qed.

(** X9. A truthy token that is not a parsed URL (the raw link string, an
    offset number) cannot be followed: [prepare_request] raises
    [AttributeError] for the missing [geturl] and builds no request,
    whatever the stream and context. *)
Theorem prepare_request_rejects_unparsed_token :
  forall (self : prefectStream) (ctx : context) (tok : pyval),
    truthy tok = true ->
    (forall u, tok <> PUrl u) ->
    EventStream.prepare_request self ctx tok = Raise (AttributeError "geturl").
Proof.
  intros self ctx tok Htok Hnot.
  unfold EventStream.prepare_request. rewrite Htok.
  destruct tok as [| b | n | s | l | d | u]; try reflexivity.
  now destruct (Hnot u).
Qed.

(** X10. Every request [prepare_request] builds is of one of two kinds:
    a GET without a JSON body, or a request with the configured method
    (POST) that carries the filter payload. It never builds a GET with a
    body nor a POST without one, and never attaches query parameters. *)
Theorem prepare_request_two_kinds :
  forall (self : prefectStream) (ctx : context) (tok : pyval)
         (rq : PreparedRequest),
    EventStream.prepare_request self ctx tok = Ok rq ->
    req_params rq = PNone
    /\ req_headers rq = http_headers self
    /\ ((req_method rq = "GET" /\ req_json rq = PNone /\ truthy tok = true)
        \/ (req_method rq = "POST"
            /\ req_json rq = EventStream.prepare_request_payload self ctx PNone
            /\ req_json rq <> PNone
            /\ truthy tok = false)).
Proof.
  intros self ctx tok rq Hrq.
  destruct (truthy tok) eqn:Htok.
  - unfold EventStream.prepare_request in Hrq. rewrite Htok in Hrq.
    destruct tok as [| b | n | s | l | d | u];
      try (cbn in Hrq; discriminate Hrq).
    cbn in Hrq. injection Hrq as <-. cbn.
    split; [reflexivity | split; [reflexivity | left; auto]].
  - destruct (EventStream.get_url self ctx) as [base | e] eqn:Hurl.
    + rewrite (prepare_request_first_page self ctx tok base Htok Hurl) in Hrq.
      injection Hrq as <-. cbn [req_params req_headers req_method req_json].
      split; [reflexivity | split; [reflexivity | right]].
      rewrite !events_payload_first_page by (assumption || reflexivity).
      repeat split; try reflexivity. discriminate.
    + rewrite (prepare_request_first_page_raises self ctx tok e Htok Hurl) in Hrq.
      discriminate Hrq.
Qed.

(** X11. The first definition of [prepare_request], the one the class
    body overwrites, never follows a link: for a truthy token it asks for
    a POST without a body to the stream's own URL, and it fails with the
    path's [KeyError] where the effective definition would follow the
    link. *)
Theorem first_definition_never_follows_links :
  forall (self : prefectStream) (ctx : context) (tok : pyval),
    truthy tok = true ->
    (forall base,
        EventStream.get_url self ctx = Ok base ->
        EventStream.prepare_request_first_definition self ctx tok
        = Ok (mkRequest "POST" base PNone (http_headers self) PNone))
    /\ (forall e,
          EventStream.get_url self ctx = Raise e ->
          EventStream.prepare_request_first_definition self ctx tok = Raise e
          /\ forall u, tok = PUrl u ->
               exists rq, EventStream.prepare_request self ctx tok = Ok rq).
Proof.
  intros self ctx tok Htok. split.
  - intros base Hurl.
    unfold EventStream.prepare_request_first_definition,
      EventStream.prepare_request_payload, EventStream.get_url_params.
    rewrite Htok, Hurl. reflexivity.
  - intros e Hurl. split.
    + unfold EventStream.prepare_request_first_definition.
      rewrite Hurl. reflexivity.
    + intros u ->. eexists. apply prepare_request_with_link.
Qed.

End events_request_edges.

Lemma get_next_url_bad_body_witness :
  MyHATEOASPaginator.get_next_url (mkResponse (Raise JSONDecodeError))
  = Raise JSONDecodeError
  /\ MyHATEOASPaginator.get_next_url
       (mkResponse (Ok (PList [Scenario.event 1])))
     = Raise (AttributeError "get").
Proof.
  split.
  - exact (proj1 (get_next_url_bad_body (mkResponse (Raise JSONDecodeError)))
             JSONDecodeError eq_refl).
  - apply (proj2 (get_next_url_bad_body
                    (mkResponse (Ok (PList [Scenario.event 1]))))
             (PList [Scenario.event 1]) eq_refl).
    intros d Hd. discriminate Hd.
Defined.

Lemma prepare_request_rejects_unparsed_token_witness :
  @EventStream.prepare_request Scenario.runtime Scenario.tap None
    (PStr Scenario.next_link)
  = Raise (AttributeError "geturl")
  /\ @EventStream.prepare_request Scenario.runtime Scenario.tap None (PInt 50)
     = Raise (AttributeError "geturl").
Proof.
  split.
  - apply (@prepare_request_rejects_unparsed_token Scenario.runtime);
      [reflexivity | intros u Hu; discriminate Hu].
  - apply (@prepare_request_rejects_unparsed_token Scenario.runtime);
      [reflexivity | intros u Hu; discriminate Hu].
Defined.

Lemma prepare_request_two_kinds_witness :
  req_params (mkRequest "GET" Scenario.next_link PNone
                (http_headers Scenario.tap) PNone) = PNone
  /\ req_headers (mkRequest "GET" Scenario.next_link PNone
                    (http_headers Scenario.tap) PNone)
     = http_headers Scenario.tap
  /\ ((req_method (mkRequest "GET" Scenario.next_link PNone
                     (http_headers Scenario.tap) PNone) = "GET"
       /\ req_json (mkRequest "GET" Scenario.next_link PNone
                      (http_headers Scenario.tap) PNone) = PNone
       /\ truthy (PUrl Scenario.next_token) = true)
      \/ (req_method (mkRequest "GET" Scenario.next_link PNone
                        (http_headers Scenario.tap) PNone) = "POST"
          /\ req_json (mkRequest "GET" Scenario.next_link PNone
                         (http_headers Scenario.tap) PNone)
             = EventStream.prepare_request_payload Scenario.tap None PNone
          /\ req_json (mkRequest "GET" Scenario.next_link PNone
                         (http_headers Scenario.tap) PNone) <> PNone
          /\ truthy (PUrl Scenario.next_token) = false)).
Proof.
  exact (@prepare_request_two_kinds Scenario.runtime Scenario.tap None
           (PUrl Scenario.next_token)
           (mkRequest "GET" Scenario.next_link PNone
              (http_headers Scenario.tap) PNone)
           eq_refl).
Defined.

Lemma first_definition_never_follows_links_witness :
  @EventStream.prepare_request_first_definition Scenario.runtime Scenario.tap
    None (PUrl Scenario.next_token)
  = Ok (mkRequest "POST" Scenario.events_url PNone
          (http_headers Scenario.tap) PNone)
  /\ (@EventStream.prepare_request_first_definition Scenario.runtime
        (mkStream [] "" PNone [] (fun _ => PNone)) None
        (PUrl Scenario.next_token)
      = Raise (KeyError "account_id")
      /\ exists rq,
           @EventStream.prepare_request Scenario.runtime
             (mkStream [] "" PNone [] (fun _ => PNone)) None
             (PUrl Scenario.next_token) = Ok rq).
Proof.
  split.
  - exact (proj1 (@first_definition_never_follows_links Scenario.runtime
                    Scenario.tap None (PUrl Scenario.next_token) eq_refl)
             Scenario.events_url eq_refl).
  - destruct (proj2 (@first_definition_never_follows_links Scenario.runtime
                       (mkStream [] "" PNone [] (fun _ => PNone)) None
                       (PUrl Scenario.next_token) eq_refl)
                (KeyError "account_id") eq_refl) as (Hraise & Hlink).
    split; [exact Hraise | exact (Hlink Scenario.next_token eq_refl)].
Defined.

(** ** The link paginator, step by step *)

Section paginator_steps.
Context `{Runtime}.

(** [advance] of the link paginator, with the base class's [has_more]
    and the loop check spelled out. *)
Lemma advance_unfold : forall (st : MyHATEOASPaginator.t) resp,
  MyHATEOASPaginator.advance st resp
  = (new_value <- pagination.hateoas_get_next
                    MyHATEOASPaginator.get_next_url resp ;;
     if pagination.hateoas_truthy new_value
        && pagination.hateoas_eqb new_value (pagination._value st)
     then Raise (RuntimeError "Loop detected in pagination.")
     else if negb (pagination.hateoas_truthy new_value)
          then Ok (pagination.mkState (pagination._value st)
                     (S (pagination._page_count st)) true)
          else Ok (pagination.mkState new_value
                     (S (pagination._page_count st)) false)).
Proof. intros st resp. reflexivity. Qed.

Lemma get_next_of_link : forall resp link,
  MyHATEOASPaginator.get_next_url resp = Ok (PStr link) ->
  link <> "" ->
  pagination.hateoas_get_next MyHATEOASPaginator.get_next_url resp
  = Ok (Some (urlparse link)).
Proof.
  intros resp link Hnext Hlink. unfold pagination.hateoas_get_next.
  rewrite Hnext. cbn [bind].
  now rewrite (truthy_nonempty_string link Hlink).
Qed.

Lemma ParseResult_eqb_refl : forall u, pagination.ParseResult_eqb u u = true.
Proof.
  intro u. unfold pagination.ParseResult_eqb.
  now rewrite !String.eqb_refl.
Qed.

(** X12. Any [next_page] value Python takes as false (not only [null] or
    a missing field, also an empty string, zero or [false]) ends the
    pagination without an error: the paginator counts the page, keeps
    its token and is finished. *)
Theorem falsy_link_ends_pagination :
  forall (st : MyHATEOASPaginator.t) (resp : Response) (d : pydict),
    json resp = Ok (PDict d) ->
    truthy (dict_get d "next_page") = false ->
    MyHATEOASPaginator.advance st resp
    = Ok (pagination.mkState (pagination._value st)
            (S (pagination._page_count st)) true).
Proof.
  intros st resp d Hjson Hfalsy.
  rewrite advance_unfold. unfold pagination.hateoas_get_next.
  rewrite (get_next_url_of_dict resp d Hjson). cbn [bind].
  rewrite Hfalsy. reflexivity.
Qed.

(** X13. A link carried by a page becomes the next request: when the
    page's [next_page] is a non-empty string that parses to another
    token than the current one, the paginator takes the parsed link as
    its token and is not finished, and the request prepared for that
    token is a GET without parameters or body to the parsed link's URL,
    which is the link itself whenever [geturl] undoes [urlparse] on
    it. *)
Theorem link_becomes_next_request :
  forall (self : prefectStream) (ctx : context) (st : MyHATEOASPaginator.t)
         (resp : Response) (d : pydict) (link : string),
    json resp = Ok (PDict d) ->
    dict_lookup "next_page" d = Some (PStr link) ->
    link <> "" ->
    pagination.hateoas_eqb (Some (urlparse link)) (pagination._value st) = false ->
    exists st',
      MyHATEOASPaginator.advance st resp = Ok st'
      /\ finished st' = false
      /\ current_value st' = PUrl (urlparse link)
      /\ EventStream.prepare_request self ctx (current_value st')
         = Ok (mkRequest "GET" (geturl (urlparse link)) PNone
                 (http_headers self) PNone)
      /\ (geturl (urlparse link) = link ->
          EventStream.prepare_request self ctx (current_value st')
          = Ok (mkRequest "GET" link PNone (http_headers self) PNone)).
Proof.
  intros self ctx st resp d link Hjson Hfield Hlink Hfresh.
  assert (Hnext : MyHATEOASPaginator.get_next_url resp = Ok (PStr link)).
  { rewrite (get_next_url_of_dict resp d Hjson). unfold dict_get.
    now rewrite Hfield. }
  exists (pagination.mkState (Some (urlparse link))
            (S (pagination._page_count st)) false).
  split; [| split; [reflexivity | split; [reflexivity | split]]].
  - rewrite advance_unfold, (get_next_of_link resp link Hnext Hlink).
    cbn [bind pagination.hateoas_truthy andb negb].
    now rewrite Hfresh.
  - apply prepare_request_with_link.
  - intro Hround. cbn. now rewrite Hround.
Qed.


End paginator_steps.

Lemma falsy_link_ends_pagination_witness :
  @MyHATEOASPaginator.advance Scenario.runtime
    (pagination.mkState (Some Scenario.next_token) 1 false)
    (mkResponse (Ok (PDict [("events", PList []); ("next_page", PStr "")])))
  = Ok (pagination.mkState (Some Scenario.next_token) 2 true).
Proof.
  exact (@falsy_link_ends_pagination Scenario.runtime
           (pagination.mkState (Some Scenario.next_token) 1 false)
           (mkResponse (Ok (PDict [("events", PList []); ("next_page", PStr "")])))
           _ eq_refl eq_refl).
Defined.

Lemma link_becomes_next_request_witness :
  exists st',
    @MyHATEOASPaginator.advance Scenario.runtime MyHATEOASPaginator.new
      Scenario.page1 = Ok st'
    /\ @EventStream.prepare_request Scenario.runtime Scenario.tap None
         (@current_value _ (@MyHATEOASPaginator.paginator Scenario.runtime) st')
       = Ok (mkRequest "GET" Scenario.next_link PNone
               (http_headers Scenario.tap) PNone).
Proof.
  destruct (@link_becomes_next_request Scenario.runtime Scenario.tap None
              MyHATEOASPaginator.new Scenario.page1 _ Scenario.next_link
              eq_refl eq_refl ltac:(discriminate) eq_refl)
    as (st' & Hadv & _ & _ & _ & Hexact).
  exists st'. split; [exact Hadv | exact (Hexact eq_refl)].
Defined.

(** ** Runs of [request_records] *)

Section runs.
Context `{Runtime} {W : Type} `{Transport W}.
Variable self : prefectStream.
Variable ctx : context.

(** X14. A server that answers a followed link with a page carrying the
    same link again does not keep the loop going: the page is counted,
    its records are yielded, and the run ends in the paginator's
    [RuntimeError]. *)
Theorem repeated_link_stops_the_run :
  forall (fuel : nat) (w w' : W) (st : MyHATEOASPaginator.t)
         (u : ParseResult) (resp : Response) (d : pydict) (link : string),
    pagination._finished st = false ->
    pagination._value st = Some u ->
    decorated_request w
      (mkRequest "GET" (geturl u) PNone (http_headers self) PNone) ctx
    = (Ok resp, w') ->
    json resp = Ok (PDict d) ->
    dict_lookup "next_page" d = Some (PStr link) ->
    link <> "" ->
    urlparse link = u ->
    EventStream.request_loop self ctx (S fuel) w st
    = page (mkRequest "GET" (geturl u) PNone (http_headers self) PNone) resp
        (extract_jsonpath EventStream.records_jsonpath (PDict d))
        (stop (Raised (RuntimeError "Loop detected in pagination."))).
Proof.
  intros fuel w w' st u resp d link Hfin Hvalue Hsend Hjson Hfield Hlink Hparse.
  assert (Hnext : MyHATEOASPaginator.get_next_url resp = Ok (PStr link)).
  { rewrite (get_next_url_of_dict resp d Hjson). unfold dict_get.
    now rewrite Hfield. }
  assert (Hadv : advance st resp
                 = Raise (RuntimeError "Loop detected in pagination.")).
  { change (advance st resp) with (MyHATEOASPaginator.advance st resp).
    rewrite advance_unfold, (get_next_of_link resp link Hnext Hlink).
    cbn [bind pagination.hateoas_truthy andb].
    rewrite Hvalue, Hparse. cbn [pagination.hateoas_eqb].
    now rewrite ParseResult_eqb_refl. }
  cbn [EventStream.request_loop].
  change (finished st) with (pagination._finished st). rewrite Hfin.
  change (current_value st)
    with (pagination.token_value (pagination._value st)).
  rewrite Hvalue. cbn [pagination.token_value].
  rewrite prepare_request_with_link, Hsend.
  unfold EventStream.parse_response. rewrite Hjson. cbn [bind].
  now rewrite Hadv.
Qed.

(** X15. Without [account_id] or [workspace_id] in the configuration a
    run sends no request at all: it ends in the [KeyError] for the
    missing identifier, with nothing yielded and nothing counted,
    whatever the transport and the bound. *)
Theorem request_records_needs_identifiers :
  forall (fuel : nat) (w : W),
    dict_lookup "account_id" (config self) = None
    \/ dict_lookup "workspace_id" (config self) = None ->
    exists key,
      (key = "account_id" \/ key = "workspace_id")
      /\ status (EventStream.request_records self ctx fuel w)
         = Raised (KeyError key)
      /\ exchanges (EventStream.request_records self ctx fuel w) = []
      /\ emitted (EventStream.request_records self ctx fuel w) = []
      /\ request_counter (EventStream.request_records self ctx fuel w) = 0.
Proof.
  intros fuel w Hmissing.
  assert (Hpath : exists key, (key = "account_id" \/ key = "workspace_id")
                              /\ EventStream.path self = Raise (KeyError key)).
  { unfold EventStream.path.
    destruct (dict_lookup "account_id" (config self)) as [a |] eqn:Ha.
    - destruct Hmissing as [Hno | Hno]; [discriminate Hno |].
      exists "workspace_id". split; [now right |].
      now apply (workspace_path_no_workspace self _ a).
    - exists "account_id". split; [now left |].
      now apply workspace_path_no_account. }
  destruct Hpath as (key & Hkey & Hpath).
  exists key. split; [exact Hkey |].
  unfold EventStream.request_records. rewrite Hpath. cbn. auto.
Qed.

(** X16. A failure of the first request is the run's failure: when the
    transport raises, the run ends in that exception with nothing
    counted; when the response's body cannot be decoded, the request is
    counted, nothing is yielded and the run ends in the decoding
    error. *)
Theorem first_request_failure_is_raised :
  forall (fuel : nat) (w : W) (base : string),
    EventStream.get_url self ctx = Ok base ->
    (forall e w',
        decorated_request w
          (mkRequest "POST" base PNone (http_headers self)
             (EventStream.prepare_request_payload self ctx PNone)) ctx
        = (Raise e, w') ->
        EventStream.request_records self ctx (S fuel) w = stop (Raised e))
    /\ (forall resp e w',
          decorated_request w
            (mkRequest "POST" base PNone (http_headers self)
               (EventStream.prepare_request_payload self ctx PNone)) ctx
          = (Ok resp, w') ->
          json resp = Raise e ->
          EventStream.request_records self ctx (S fuel) w
          = page (mkRequest "POST" base PNone (http_headers self)
                    (EventStream.prepare_request_payload self ctx PNone))
              resp [] (stop (Raised e))).
Proof.
  intros fuel w base Hurl.
  assert (Hrun : EventStream.request_records self ctx (S fuel) w
                 = EventStream.request_loop self ctx (S fuel) w
                     EventStream.get_new_paginator)
    by (apply request_records_unfold; now apply (get_url_ok_path_ok self ctx base)).
  assert (Hprep := prepare_request_first_page self ctx PNone base eq_refl Hurl).
  split.
  - intros e w' Hsend. rewrite Hrun. cbn [EventStream.request_loop].
    change (finished EventStream.get_new_paginator) with false.
    change (current_value EventStream.get_new_paginator) with PNone.
    cbv iota. rewrite Hprep. unfold EventStream.rest_method.
    now rewrite Hsend.
  - intros resp e w' Hsend Hjson. rewrite Hrun. cbn [EventStream.request_loop].
    change (finished EventStream.get_new_paginator) with false.
    change (current_value EventStream.get_new_paginator) with PNone.
    cbv iota. rewrite Hprep. unfold EventStream.rest_method.
    rewrite Hsend. unfold EventStream.parse_response. now rewrite Hjson.
Qed.



End runs.

(** A server that answers the link of the scenario with a page carrying
    that same link ends the run with the paginator's error, the page's
    record yielded. *)
Lemma repeated_link_stops_the_run_witness :
  status
    (@EventStream.request_loop Scenario.runtime _ _
       (@MyHATEOASPaginator.paginator Scenario.runtime) Scenario.server
       Scenario.tap None 5
       [(("GET", Scenario.next_link),
         mkResponse (Ok (PDict [ ("events", PList [Scenario.event 3]);
                                 ("next_page", PStr Scenario.next_link) ])))]
       (pagination.mkState (Some Scenario.next_token) 1 false))
  = Raised (RuntimeError "Loop detected in pagination.")
  /\ emitted
       (@EventStream.request_loop Scenario.runtime _ _
          (@MyHATEOASPaginator.paginator Scenario.runtime) Scenario.server
          Scenario.tap None 5
          [(("GET", Scenario.next_link),
            mkResponse (Ok (PDict [ ("events", PList [Scenario.event 3]);
                                    ("next_page", PStr Scenario.next_link) ])))]
          (pagination.mkState (Some Scenario.next_token) 1 false))
     = [Scenario.event 3].
Proof.
  rewrite (@repeated_link_stops_the_run Scenario.runtime _ Scenario.server
             Scenario.tap None 4
             [(("GET", Scenario.next_link),
               mkResponse (Ok (PDict [ ("events", PList [Scenario.event 3]);
                                       ("next_page", PStr Scenario.next_link) ])))]
             [(("GET", Scenario.next_link),
               mkResponse (Ok (PDict [ ("events", PList [Scenario.event 3]);
                                       ("next_page", PStr Scenario.next_link) ])))]
             (pagination.mkState (Some Scenario.next_token) 1 false)
             Scenario.next_token
             (mkResponse (Ok (PDict [ ("events", PList [Scenario.event 3]);
                                      ("next_page", PStr Scenario.next_link) ])))
             _ Scenario.next_link
             eq_refl eq_refl eq_refl eq_refl eq_refl ltac:(discriminate) eq_refl).
  split; reflexivity.
Defined.

Lemma request_records_needs_identifiers_witness :
  exists key,
    (key = "account_id" \/ key = "workspace_id")
    /\ status (@EventStream.request_records Scenario.runtime _ Scenario.server
                 (mkStream [("account_id", PStr "acct")] "" PNone []
                    (fun _ => PNone))
                 None 3 Scenario.events_api)
       = Raised (KeyError key)
    /\ exchanges (@EventStream.request_records Scenario.runtime _ Scenario.server
                    (mkStream [("account_id", PStr "acct")] "" PNone []
                       (fun _ => PNone))
                    None 3 Scenario.events_api) = []
    /\ emitted (@EventStream.request_records Scenario.runtime _ Scenario.server
                  (mkStream [("account_id", PStr "acct")] "" PNone []
                     (fun _ => PNone))
                  None 3 Scenario.events_api) = []
    /\ request_counter
         (@EventStream.request_records Scenario.runtime _ Scenario.server
            (mkStream [("account_id", PStr "acct")] "" PNone []
               (fun _ => PNone))
            None 3 Scenario.events_api) = 0.
Proof.
  exact (@request_records_needs_identifiers Scenario.runtime _ Scenario.server
           (mkStream [("account_id", PStr "acct")] "" PNone [] (fun _ => PNone))
           None 3 Scenario.events_api (or_intror eq_refl)).
Defined.

(** A server that knows no route refuses the first request; one that
    answers it with an undecodable body has the request counted. *)
Lemma first_request_failure_is_raised_witness :
  @EventStream.request_records Scenario.runtime _ Scenario.server
    Scenario.tap None 3 []
  = stop (Raised (RequestException "404"))
  /\ status
       (@EventStream.request_records Scenario.runtime _ Scenario.server
          Scenario.tap None 3
          [(("POST", Scenario.events_url), mkResponse (Raise JSONDecodeError))])
     = Raised JSONDecodeError
  /\ request_counter
       (@EventStream.request_records Scenario.runtime _ Scenario.server
          Scenario.tap None 3
          [(("POST", Scenario.events_url), mkResponse (Raise JSONDecodeError))])
     = 1.
Proof.
  split.
  - exact (proj1 (@first_request_failure_is_raised Scenario.runtime _
                    Scenario.server Scenario.tap None 2 [] Scenario.events_url
                    eq_refl)
             (RequestException "404") [] eq_refl).
  - rewrite (proj2 (@first_request_failure_is_raised Scenario.runtime _
                      Scenario.server Scenario.tap None 2
                      [(("POST", Scenario.events_url),
                        mkResponse (Raise JSONDecodeError))]
                      Scenario.events_url eq_refl)
               (mkResponse (Raise JSONDecodeError)) JSONDecodeError _
               eq_refl eq_refl).
    split; reflexivity.
Defined.


